(** * dapsenv daemon: job scheduling and build orchestration

    A shallow embedding of [dapsenv/actions/daemon.py] (class [Daemon]):
    the shared [_daemon_info] store, the change detector
    ([_prepare_build_task]), the scheduler ([_jobManager]), the build worker
    ([_process]), the status API ([_api_server_runtime], [getJobList]) and
    the settings loader ([loadDaemonSettings]).

    Python integers are modelled by [Z], strings by [string], dictionaries
    with a fixed set of keys by records (a key that may be missing is an
    [option] field), dictionaries with data-dependent keys by [gmap string],
    and raised exceptions by an explicit error type.  The threads of the
    daemon are modelled by a transition system whose actions are their
    critical sections on [_daemon_info] and the code between two of them;
    the collaborators (repositories, build environment, clock,
    configuration) are functions the definitions take as arguments. *)

From Stdlib Require Import ZArith Lia String Ascii List Bool.
From Stdlib Require Import DecimalString.
From stdpp Require Import base option list strings gmap.

Open Scope string_scope.
Open Scope list_scope.
Open Scope Z_scope.

(* ===================================================================== *)
(** ** Python primitives used by the daemon *)
(* ===================================================================== *)

Module Py.

(** The exception classes that the daemon code can raise or catch. *)
Inductive exn : Type :=
| KeyError (key : string)
| IndexError
| TypeError
| ValueError.

(** The outcome of evaluating a Python expression that may raise. *)
Inductive res (A : Type) : Type :=
| Ok (a : A)
| Raise (e : exn).
Arguments Ok {A} a.
Arguments Raise {A} e.

(** [str(z)] for an [int]. *)
Definition str_of_int (z : Z) : string :=
  NilZero.string_of_int (Z.to_int z).

(** [s[n:]]: the string without its first [n] characters. *)
Fixpoint slice_from (n : nat) (s : string) : string :=
  match n, s with
  | O, _ => s
  | S _, EmptyString => EmptyString
  | S n', String _ s' => slice_from n' s'
  end.

(** [s.replace(old, new)] for one-character [old] and [new]. *)
Fixpoint replace_char (old new : ascii) (s : string) : string :=
  match s with
  | EmptyString => EmptyString
  | String c s' =>
      String (if Ascii.eqb c old then new else c) (replace_char old new s')
  end.

(** [needle in haystack] for two strings: substring test. *)
Fixpoint str_contains (needle haystack : string) : bool :=
  String.prefix needle haystack ||
  match haystack with
  | EmptyString => false
  | String _ h' => str_contains needle h'
  end.

End Py.

(* ===================================================================== *)
(** ** Data model: projects, jobs and the shared daemon information *)
(* ===================================================================== *)

(** One entry of [self.projects].  The field ["repo"] is the handle of the
    revision-control collaborator; it is identified by the working
    directory it wraps. *)
Record Project : Type := mkProject {
  project       : string;
  repo          : string;
  vcs_branch    : string;
  vcs_lastrev   : string;
  vcs_repodir   : string;
  dc_files      : list string;
  notifications : list string   (* project_info["notifications"]["irc"] *)
}.

(** One entry of [_daemon_info["jobs"]].  The dictionary appended by
    [_prepare_build_task] has no key ["time_started"]; the scheduler adds
    it when it promotes the job, hence the [option]. *)
Record Job : Type := mkJob {
  job_project  : Project;
  dc_file      : string;
  commit       : string;
  status       : Z;
  container_id : string;
  time_started : option Z
}.

(** The two values [status] takes in the code. *)
Definition Queued : Z := 0.
Definition Running : Z := 1.

(** [self._daemon_info]. *)
Record DaemonInfo : Type := mkInfo {
  jobs             : list Job;
  scheduled_builds : Z;
  running_builds   : Z
}.

(** The value assigned in [_preperation]. *)
Definition initial_info : DaemonInfo :=
  {| jobs := []; scheduled_builds := 0; running_builds := 0 |}.

(** The number of jobs of the sequence that have the given status. *)
Definition count_status (s : Z) (l : list Job) : Z :=
  Z.of_nat (length (filter (fun j => status j = s) l)).

(* ===================================================================== *)
(** ** Change detector: [_prepare_build_task] *)
(* ===================================================================== *)

(** The dictionary appended to [_daemon_info["jobs"]] (lines 311-317). *)
Definition new_job (p : Project) (dc commit_hash : string) : Job :=
  {| job_project := p; dc_file := dc; commit := commit_hash;
     status := 0; container_id := ""; time_started := None |}.

(** The critical section of lines 310-320: append the job and count it. *)
Definition enqueue (j : Job) (info : DaemonInfo) : DaemonInfo :=
  {| jobs := jobs info ++ [j];
     scheduled_builds := scheduled_builds info + 1;
     running_builds := running_builds info |}.

Definition set_lastrev (p : Project) (rev : string) : Project :=
  {| project := project p; repo := repo p; vcs_branch := vcs_branch p;
     vcs_lastrev := rev; vcs_repodir := vcs_repodir p;
     dc_files := dc_files p; notifications := notifications p |}.

(** What one detection pass does besides changing the store: the calls
    [autoBuildConfig.updateCommitHash(project, commit)]. *)
Definition ConfigUpdate : Type := (string * string)%type.

Section Detector.

(** The revision-control collaborator after the forced pull:
    [upstream r b] is what [getLastCommitHash(b)] answers for the
    repository [r]. *)
Variable upstream : string -> string -> string.

(** The body of the outer loop (lines 296-320) for one project. *)
Definition check_project (p : Project) (info : DaemonInfo)
  : Project * DaemonInfo * list ConfigUpdate :=
  let commit_hash := upstream (repo p) (vcs_branch p) in
  if negb (String.eqb (vcs_lastrev p) commit_hash) then
    let p' := set_lastrev p commit_hash in
    (p',
     fold_left (fun i dc => enqueue (new_job p' dc commit_hash) i)
               (dc_files p') info,
     [(project p', commit_hash)])
  else (p, info, []).

(** [_prepare_build_task]: the loop over [self.projects], in the
    iteration order of the dictionary. *)
Fixpoint _prepare_build_task (ps : list Project) (info : DaemonInfo)
  : list Project * DaemonInfo * list ConfigUpdate :=
  match ps with
  | [] => ([], info, [])
  | p :: rest =>
      let '(p', info1, u1) := check_project p info in
      let '(rest', info2, u2) := _prepare_build_task rest info1 in
      (p' :: rest', info2, u1 ++ u2)
  end.

End Detector.

(* ===================================================================== *)
(** ** Scheduler: [_jobManager] *)
(* ===================================================================== *)

(** The arguments of a worker thread: [(deepcopy(job["project"]),
    job["dc_file"][:])]. *)
Record Worker : Type := mkWorker {
  w_project : Project;
  w_dc_file : string
}.

Definition set_running (j : Job) (now : Z) : Job :=
  {| job_project := job_project j; dc_file := dc_file j; commit := commit j;
     status := 1; container_id := container_id j;
     time_started := Some now |}.

(** The critical section of lines 265-274.  It addresses the live list by
    the position [idx] found in the snapshot; a position past the end of
    the live list raises [IndexError] at line 269, before any counter of
    the store is touched. *)
Definition promote_at (idx : nat) (now : Z) (info : DaemonInfo)
  : Py.res DaemonInfo :=
  match jobs info !! idx with
  | None => Py.Raise Py.IndexError
  | Some j =>
      Py.Ok {| jobs := <[idx := set_running j now]> (jobs info);
               scheduled_builds := scheduled_builds info - 1;
               running_builds := running_builds info + 1 |}
  end.

(** What one iteration of the [for] loop (lines 250-276) decides from the
    local counter and the snapshot entry. *)
Inductive decision : Type :=
| Break
| Start (w : Worker).

Definition scan_body (max_containers running : Z) (job : Job) : decision :=
  if running >=? max_containers then Break
  else if status job =? 0 then
    Start {| w_project := job_project job; w_dc_file := dc_file job |}
  else Break.

Section Tick.

Variable max_containers : Z.

(** [clock idx] is what [int(time.time())] returns when the job at
    position [idx] is promoted. *)
Variable clock : nat -> Z.

(** The [for] loop run without interference from other threads:
    [snapshot] is what is left of the deep copy, [idx] the position
    reached, [running] the local counter and [live] the store. *)
Fixpoint scan (snapshot : list Job) (idx : nat) (running : Z)
  (live : DaemonInfo) : Py.res (DaemonInfo * list Worker) :=
  match snapshot with
  | [] => Py.Ok (live, [])
  | job :: rest =>
      match scan_body max_containers running job with
      | Break => Py.Ok (live, [])
      | Start w =>
          match promote_at idx (clock idx) live with
          | Py.Raise e => Py.Raise e
          | Py.Ok live' =>
              match scan rest (S idx) (running + 1) live' with
              | Py.Raise e => Py.Raise e
              | Py.Ok (live'', ws) => Py.Ok (live'', w :: ws)
              end
          end
      end
  end.

(** One pass of the [while True] body of [_jobManager] (lines 243-276),
    run without interference: the new store and the workers started, in
    the order of their start. *)
Definition jobManager_tick (info : DaemonInfo)
  : Py.res (DaemonInfo * list Worker) :=
  let running := running_builds info in
  let snapshot := jobs info in
  if running <? max_containers then scan snapshot 0 running info
  else Py.Ok (info, []).

End Tick.

(* ===================================================================== *)
(** ** Worker: the two critical sections of [_process] *)
(* ===================================================================== *)

(** The test of lines 337 and 440. *)
Definition job_matches (dc : string) (j : Job) : Prop :=
  dc_file j = dc /\ status j = 1.

#[global] Instance job_matches_dec dc j : Decision (job_matches dc j).
Proof. unfold job_matches. apply _. Defined.

Definition set_container_id (j : Job) (cid : string) : Job :=
  {| job_project := job_project j; dc_file := dc_file j; commit := commit j;
     status := status j; container_id := cid;
     time_started := time_started j |}.

(** Lines 334-341: store the container id in the first running job of
    this build-control file. *)
Definition record_container (dc cid : string) (info : DaemonInfo)
  : DaemonInfo :=
  match list_find (job_matches dc) (jobs info) with
  | Some (idx, j) =>
      {| jobs := <[idx := set_container_id j cid]> (jobs info);
         scheduled_builds := scheduled_builds info;
         running_builds := running_builds info |}
  | None => info
  end.

(** Lines 436-444: decrement the counter, then pop the first running job
    of this build-control file, if there is one. *)
Definition process_finish (dc : string) (info : DaemonInfo) : DaemonInfo :=
  {| jobs :=
       match list_find (job_matches dc) (jobs info) with
       | Some (idx, _) => delete idx (jobs info)
       | None => jobs info
       end;
     scheduled_builds := scheduled_builds info;
     running_builds := running_builds info - 1 |}.

(* ===================================================================== *)
(** ** Status API: [getJobList] and [_api_server_runtime] *)
(* ===================================================================== *)

Module Json.

(** What [json.loads] returns.  A [float] is given by its IEEE-754
    binary64 bit pattern; an object by its members in document order
    (when a name is repeated the last member wins, as in [json.loads]). *)
#[local] Unset Elimination Schemes.
Inductive value : Type :=
| Null
| Bool (b : bool)
| Int (z : Z)
| Float (bits : Z)
| Str (s : string)
| Arr (items : list value)
| Obj (members : list (string * value)).
#[local] Set Elimination Schemes.

(** [d[key]] for the dictionary built from [members]. *)
Fixpoint dict_get (key : string) (members : list (string * value))
  : option value :=
  match members with
  | [] => None
  | (k, v) :: rest =>
      match dict_get key rest with
      | Some v' => Some v'
      | None => if String.eqb k key then Some v else None
      end
  end.

(** The bit pattern of the float [1.0]. *)
Definition one_bits : Z := 0x3FF0000000000000.

(** [v == 1]: Python compares numbers by value across [int], [float] and
    [bool]; every other value differs from [1]. *)
Definition eq_one (v : value) : bool :=
  match v with
  | Int z => z =? 1
  | Bool b => b
  | Float bits => bits =? one_bits
  | _ => false
  end.

(** [v == "id"] for [v] an element of a list. *)
Definition eq_str (s : string) (v : value) : bool :=
  match v with
  | Str s' => String.eqb s' s
  | _ => false
  end.

(** ["id" in data] (line 164). *)
Definition contains (key : string) (data : value) : Py.res bool :=
  match data with
  | Obj members => Py.Ok (bool_decide (is_Some (dict_get key members)))
  | Str s => Py.Ok (Py.str_contains key s)
  | Arr items => Py.Ok (existsb (eq_str key) items)
  | Null | Bool _ | Int _ | Float _ => Py.Raise Py.TypeError
  end.

(** [data["id"]] (line 175), reached only when [contains] answered
    [True]. *)
Definition subscript (key : string) (data : value) : Py.res value :=
  match data with
  | Obj members =>
      match dict_get key members with
      | Some v => Py.Ok v
      | None => Py.Raise (Py.KeyError key)
      end
  | _ => Py.Raise Py.TypeError
  end.

End Json.

(** One element of the list built by [getJobList] (lines 462-470); the key
    ["status"] is written twice in the source with the same value. *)
Record JobView : Type := mkJobView {
  v_project      : string;
  v_branch       : string;
  v_dc_file      : string;
  v_status       : Z;
  v_commit       : string;
  v_time_started : Z
}.

(** [getJobList] on the job sequence: [job["time_started"]] raises
    [KeyError] for a job that was never promoted. *)
Fixpoint getJobList (l : list Job) : Py.res (list JobView) :=
  match l with
  | [] => Py.Ok []
  | job :: rest =>
      match time_started job with
      | None => Py.Raise (Py.KeyError "time_started")
      | Some t =>
          let view :=
            {| v_project := project (job_project job);
               v_branch := vcs_branch (job_project job);
               v_dc_file := dc_file job;
               v_status := status job;
               v_commit := commit job;
               v_time_started := t |} in
          match getJobList rest with
          | Py.Ok views => Py.Ok (view :: views)
          | Py.Raise e => Py.Raise e
          end
      end
  end.

(** The dictionary passed to [json.dumps] at lines 177-184. *)
Record StatusReply : Type := mkReply {
  r_id               : Json.value;
  r_running_builds   : Z;
  r_scheduled_builds : Z;
  r_jobs             : list JobView
}.

(** What the server does with one received message. *)
Inductive outcome : Type :=
| Reply (r : StatusReply)     (* [websocket.send]; the loop goes on *)
| Close                       (* [websocket.close]; the coroutine returns *)
| Escapes (e : Py.exn).       (* an exception the coroutine does not catch *)

(** One pass of the loop body of [_api_server_runtime] (lines 159-191) for
    a received message; [parsed] is [None] when [json.loads] raises
    [ValueError].  The counters are copied in one critical section
    ([at_counters]) and the job list is read in a later one ([at_jobs]). *)
Definition _api_server_runtime (at_counters at_jobs : DaemonInfo)
  (parsed : option Json.value) : outcome :=
  match parsed with
  | None => Close
  | Some data =>
      match Json.contains "id" data with
      | Py.Raise Py.ValueError => Close
      | Py.Raise e => Escapes e
      | Py.Ok false => Close
      | Py.Ok true =>
          let running := running_builds at_counters in
          let scheduled := scheduled_builds at_counters in
          match Json.subscript "id" data with
          | Py.Raise Py.ValueError => Close
          | Py.Raise e => Escapes e
          | Py.Ok id =>
              if Json.eq_one id then
                match getJobList (jobs at_jobs) with
                | Py.Raise Py.ValueError => Close
                | Py.Raise e => Escapes e
                | Py.Ok views =>
                    Reply {| r_id := id;
                             r_running_builds := running;
                             r_scheduled_builds := scheduled;
                             r_jobs := views |}
                end
              else Close
          end
      end
  end.

(* ===================================================================== *)
(** ** Settings: [loadDaemonSettings] *)
(* ===================================================================== *)

Module PyInt.

(** The characters [int()] strips from both ends of its argument. *)
Definition is_space (c : ascii) : bool :=
  let n := nat_of_ascii c in
  ((9 <=? n) && (n <=? 13) || (28 <=? n) && (n <=? 32))%nat.

Definition digit (c : ascii) : option Z :=
  let n := nat_of_ascii c in
  if ((48 <=? n) && (n <=? 57))%nat then Some (Z.of_nat n - 48) else None.

Fixpoint lstrip (s : string) : string :=
  match s with
  | String c s' => if is_space c then lstrip s' else s
  | EmptyString => EmptyString
  end.

Fixpoint rstrip (s : string) : string :=
  match s with
  | EmptyString => EmptyString
  | String c s' =>
      match rstrip s' with
      | EmptyString => if is_space c then EmptyString
                       else String c EmptyString
      | r => String c r
      end
  end.

(** Decimal digits, where single underscores may separate digits.
    [acc] is the value read so far and [after_digit] tells whether the
    previous character was a digit. *)
Fixpoint digits (acc : Z) (after_digit : bool) (s : string) : option Z :=
  match s with
  | EmptyString => if after_digit then Some acc else None
  | String c s' =>
      match digit c with
      | Some d => digits (10 * acc + d) true s'
      | None =>
          if Ascii.eqb c "_" && after_digit then digits acc false s'
          else None
      end
  end.

(** [int(s)] for a string of ASCII characters, in base 10. *)
Definition of_string (s : string) : Py.res Z :=
  let body := rstrip (lstrip s) in
  let '(negative, ds) :=
    match body with
    | String "-" r => (true, r)
    | String "+" r => (false, r)
    | _ => (false, body)
    end in
  match digits 0 false ds with
  | Some n => Py.Ok (if (negative : bool) then - n else n)
  | None => Py.Raise Py.ValueError
  end.

(** [int(x)] for what [configmanager.get_prop] returns: a string, or
    [None] when the property is absent. *)
Definition int (x : option string) : Py.res Z :=
  match x with
  | None => Py.Raise Py.TypeError
  | Some s => of_string s
  end.

End PyInt.

(** The attributes set by [loadDaemonSettings]. *)
Record Settings : Type := mkSettings {
  _interval        : Z;
  _max_containers  : Z;
  _api_server      : option string;
  _api_server_port : Z
}.

Section Settings.

(** The constants of [dapsenv.general]. *)
Variables DAEMON_DEFAULT_INTERVAL DAEMON_DEFAULT_MAX_CONTAINERS
          API_SERVER_DEFAULT_PORT : Z.

(** [configmanager.get_prop]. *)
Variable get_prop : string -> option string.

(** [try: x = int(get_prop(key)) except TypeError: x = default]: only
    [TypeError] is caught, every other exception leaves the function. *)
Definition int_or_default (key : string) (default : Z) : Py.res Z :=
  match PyInt.int (get_prop key) with
  | Py.Ok n => Py.Ok n
  | Py.Raise Py.TypeError => Py.Ok default
  | Py.Raise e => Py.Raise e
  end.

Definition loadDaemonSettings : Py.res Settings :=
  match int_or_default "daemon_check_interval" DAEMON_DEFAULT_INTERVAL with
  | Py.Raise e => Py.Raise e
  | Py.Ok interval =>
      match int_or_default "daemon_max_containers"
                           DAEMON_DEFAULT_MAX_CONTAINERS with
      | Py.Raise e => Py.Raise e
      | Py.Ok max_containers =>
          let api_server := get_prop "api_server" in
          match int_or_default "api_server_port"
                               API_SERVER_DEFAULT_PORT with
          | Py.Raise e => Py.Raise e
          | Py.Ok port =>
              Py.Ok {| _interval := interval;
                       _max_containers := max_containers;
                       _api_server := api_server;
                       _api_server_port := port |}
          end
      end
  end.

End Settings.

(* ===================================================================== *)
(** ** Worker: the build pipeline of [_process] *)
(* ===================================================================== *)

(** The values held by the result dictionaries of the build environment
    that the worker looks at. *)
Inductive rval : Type :=
| RStr (s : string)
| RBool (b : bool)
| RInt (z : Z)
| RNone.

(** [str(v)], as used by [str.format]. *)
Definition rval_str (v : rval) : string :=
  match v with
  | RStr s => s
  | RBool true => "True"
  | RBool false => "False"
  | RInt z => Py.str_of_int z
  | RNone => "None"
  end.

(** The truth value of [v] in an [if]. *)
Definition truthy (v : rval) : bool :=
  match v with
  | RStr s => negb (String.eqb s "")
  | RBool b => b
  | RInt z => negb (z =? 0)
  | RNone => false
  end.

(** The build-environment collaborator ([dapsenv.docker.Container]), as
    far as its answers matter to the worker. *)
Record Container : Type := mkContainer {
  getContainerID     : string;
  (** [buildDocumentation(dc_file, f)] *)
  buildDocumentation : string -> string -> gmap string rval;
  (** the parsed [/tmp/doc_info.json] left by that build *)
  doc_info           : string -> string -> gmap string rval
}.

(** The effects of a worker that other components or the outside can
    observe, in the order of their occurrence.  The two critical sections
    on the shared store are events too. *)
Inductive event : Type :=
| EvSpawn
| EvRecordContainer (dc cid : string)
| EvPrepare (repodir : string)
| EvBuild (dc f : string)
| EvExecute (cmd : string)
| EvFileCreate (path : string) (json_of : gmap string rval)
| EvFetch (remote local : string)
| EvOpen (path : string)
| EvWrite (path content : string)
| EvClientMessage (client message : string)
| EvChannelMessage (message : string)
| EvFinish (dc : string)
| EvKill.

(** Computations that emit events and may raise. *)
Definition M (A : Type) : Type := (list event * Py.res A)%type.

Definition ret {A} (a : A) : M A := ([], Py.Ok a).

Definition bind {A B} (m : M A) (k : A -> M B) : M B :=
  match m with
  | (es, Py.Raise e) => (es, Py.Raise e)
  | (es, Py.Ok a) => let '(es', r) := k a in (es ++ es', r)
  end.

Definition emit (e : event) : M unit := ([e], Py.Ok tt).

Definition raise {A} (e : Py.exn) : M A := ([], Py.Raise e).

Notation "x <- m ;; k" := (bind m (fun x => k))
  (at level 62, m at next level, right associativity).
Notation "m ;;; k" := (bind m (fun _ => k))
  (at level 62, right associativity).

(** [d[key]] *)
Definition getitem (d : gmap string rval) (key : string) : M rval :=
  match d !! key with
  | Some v => ret v
  | None => raise (Py.KeyError key)
  end.

(** [del d[key]] *)
Definition delitem (d : gmap string rval) (key : string)
  : M (gmap string rval) :=
  match d !! key with
  | Some _ => ret (delete key d)
  | None => raise (Py.KeyError key)
  end.

(** [for x in xs: body x] *)
Fixpoint for_each {A} (xs : list A) (body : A -> M unit) : M unit :=
  match xs with
  | [] => ret tt
  | x :: rest => body x ;;; for_each rest body
  end.

(** The part of [self._irc_config] read by the worker. *)
Record IrcConfig : Type := mkIrcConfig {
  irc_inform_build_success : bool;
  irc_inform_build_fail    : bool;
  irc_channel_messages     : bool
}.

(** Line 347. *)
Definition build_formats : list string := ["html"; "single_html"; "pdf"].

Section Process.

(** The constants of [dapsenv.general]. *)
Variables BUILDS_DIR LOG_DIR : string.

(** [self._hostname], [self._debug], whether [self._ircbot] is set, and
    [self._irc_config]. *)
Variable hostname : string.
Variable debug : bool.
Variable ircbot : bool.
Variable irc_config : IrcConfig.

(** [now f] is what [int(time.time())] returns while the format [f] is
    handled. *)
Variable now : string -> Z.

(** Line 382. *)
Definition archive_file_name (t : Z) (dc f : string) : string :=
  Py.str_of_int t +:+ "_" +:+ Py.slice_from 3 dc +:+ "_" +:+
  Py.replace_char "_" "-" f +:+ ".tar.gz".

(** Lines 406-411. *)
Definition error_log_name (dc f : rval) (t : Z) : string :=
  LOG_DIR +:+ "/build_fail_" +:+ rval_str dc +:+ "_" +:+ rval_str f +:+
  "_" +:+ Py.str_of_int t +:+ ".log".

(** Lines 390-396. *)
Definition success_message (dc f : rval) (file_name : string) : string :=
  "A new build has been finished on " +:+ hostname +:+ "! DC-File: " +:+
  rval_str dc +:+ ", Format: " +:+ rval_str f +:+ ", Output-Archive: " +:+
  file_name.

(** Lines 419-425. *)
Definition fail_message (dc f : rval) (path : string) : string :=
  "A build has failed on " +:+ hostname +:+ "! DC-File: " +:+
  rval_str dc +:+ ", Format: " +:+ rval_str f +:+ ", Error-Log: " +:+
  path.

(** Lines 398-402 and 427-431. *)
Definition notify (p : Project) (message : string) : M unit :=
  for_each (notifications p)
           (fun client => emit (EvClientMessage client message)) ;;;
  if irc_channel_messages irc_config then emit (EvChannelMessage message)
  else ret tt.

(** The body of the loop over the formats (lines 350-433). *)
Definition build_format (c : Container) (p : Project) (dc f : string)
  : M unit :=
  emit (EvBuild dc f) ;;;
  let result := buildDocumentation c dc f in
  archive <- getitem result "archive_name" ;;
  result <- delitem result "archive_name" ;;
  emit (EvExecute "cat /tmp/doc_info.json") ;;;
  let product := doc_info c dc f in
  let result := product ∪ result in
  result <- (if debug
             then ret (<["container_id" := RStr (getContainerID c)]> result)
             else delitem result "dapscmd") ;;
  build_status <- getitem result "build_status" ;;
  if truthy build_status then
    emit (EvFileCreate "/tmp/build_info.json" result) ;;;
    emit (EvExecute ("tar -C /tmp --append --file=" +:+ rval_str archive
                     +:+ " build_info.json")) ;;;
    emit (EvExecute ("gzip " +:+ rval_str archive)) ;;;
    let file_name := archive_file_name (now f) dc f in
    emit (EvFetch (rval_str archive +:+ ".gz")
                  (BUILDS_DIR +:+ "/" +:+ file_name)) ;;;
    if ircbot && irc_inform_build_success irc_config then
      rdc <- getitem result "dc_file" ;;
      rf <- getitem result "format" ;;
      notify p (success_message rdc rf file_name)
    else ret tt
  else
    rdc <- getitem result "dc_file" ;;
    rf <- getitem result "format" ;;
    let error_log_path := error_log_name rdc rf (now f) in
    emit (EvOpen error_log_path) ;;;
    build_log <- getitem result "build_log" ;;
    match build_log with
    | RStr text => emit (EvWrite error_log_path text)
    | _ => raise Py.TypeError
    end ;;;
    if ircbot && irc_inform_build_fail irc_config then
      rdc <- getitem result "dc_file" ;;
      rf <- getitem result "format" ;;
      notify p (fail_message rdc rf error_log_path)
    else ret tt.

(** [_process(project_info, dc_file)] with the container [c] it
    creates. *)
Definition _process (c : Container) (project_info : Project)
  (dc : string) : M unit :=
  emit EvSpawn ;;;
  emit (EvRecordContainer dc (getContainerID c)) ;;;
  emit (EvPrepare (vcs_repodir project_info)) ;;;
  for_each build_formats (build_format c project_info dc) ;;;
  emit (EvFinish dc) ;;;
  if debug then ret tt else emit EvKill.

End Process.

(** What the two critical sections of a worker do to the store. *)
Definition store_effect (e : event) (info : DaemonInfo) : DaemonInfo :=
  match e with
  | EvRecordContainer dc cid => record_container dc cid info
  | EvFinish dc => process_finish dc info
  | _ => info
  end.

(* ===================================================================== *)
(** ** The daemon as a transition system *)
(* ===================================================================== *)

(** Where the scheduler thread stands in [_jobManager].  Between its
    critical sections it holds a snapshot of the job list, the position
    reached in it and its local copy of the running counter. *)
Inductive SchedState : Type :=
| Sleeping
    (* in [time.sleep(1)], before the lock of line 243 *)
| Scanning (running : Z) (snapshot : list Job) (idx : nat)
    (* at the head of the [for] loop; [snapshot] is what is left *)
| Starting (running : Z) (snapshot : list Job) (idx : nat)
    (* after [thread.start()], before the lock of line 265 *)
| Dead.
    (* the thread ended with an exception *)

(** A worker thread: its arguments, and whether it has passed its first
    critical section. *)
Record WorkerThread : Type := mkThread {
  wt_args     : Worker;
  wt_recorded : bool
}.

Record World : Type := mkWorld {
  store   : DaemonInfo;
  (** [_daemon_info_lock] was acquired by a thread that ended before
      releasing it *)
  leaked  : bool;
  sched   : SchedState;
  threads : list WorkerThread
}.

Definition initial_world : World :=
  {| store := initial_info; leaked := false; sched := Sleeping;
     threads := [] |}.

(** The atomic actions of the threads: every critical section is one
    action, and so is the code between two of them. *)
Inductive label : Type :=
| LEnqueue (p : Project) (dc commit_hash : string)
    (* detector, lines 310-320 *)
| LSchedRead
    (* scheduler, lines 243-249 *)
| LSchedScan
    (* scheduler, lines 250-262 and 275-276 *)
| LSchedPromote (now : Z)
    (* scheduler, lines 265-274 *)
| LWorkerRecord (i : nat) (cid : string)
    (* worker number [i], lines 334-341 *)
| LWorkerFinish (i : nat)
    (* worker number [i], lines 436-444 *)
| LStatusRequest.
    (* status API, [getJobList], lines 460-471 *)

Definition with_store (w : World) (s : DaemonInfo) : World :=
  {| store := s; leaked := leaked w; sched := sched w;
     threads := threads w |}.

Definition with_sched (w : World) (s : SchedState) : World :=
  {| store := store w; leaked := leaked w; sched := s;
     threads := threads w |}.

Section Exec.

Variable max_containers : Z.

(** [exec l w] is the world after the action [l], or [None] when the
    action cannot be taken in [w]. *)
Definition exec (l : label) (w : World) : option World :=
  match l with
  | LEnqueue p dc c =>
      if leaked w then None
      else Some (with_store w (enqueue (new_job p dc c) (store w)))
  | LSchedRead =>
      match sched w with
      | Sleeping =>
          if leaked w then None
          else
            let running := running_builds (store w) in
            let snapshot := jobs (store w) in
            if running <? max_containers
            then Some (with_sched w (Scanning running snapshot 0))
            else Some w
      | _ => None
      end
  | LSchedScan =>
      match sched w with
      | Scanning running [] idx => Some (with_sched w Sleeping)
      | Scanning running (job :: rest) idx =>
          match scan_body max_containers running job with
          | Break => Some (with_sched w Sleeping)
          | Start args =>
              Some {| store := store w; leaked := leaked w;
                      sched := Starting running rest idx;
                      threads := threads w ++
                        [{| wt_args := args; wt_recorded := false |}] |}
          end
      | _ => None
      end
  | LSchedPromote now =>
      match sched w with
      | Starting running rest idx =>
          if leaked w then None
          else
            match promote_at idx now (store w) with
            | Py.Ok s =>
                Some {| store := s; leaked := false;
                        sched := Scanning (running + 1) rest (S idx);
                        threads := threads w |}
            | Py.Raise _ =>
                Some {| store := store w; leaked := true;
                        sched := Dead; threads := threads w |}
            end
      | _ => None
      end
  | LWorkerRecord i cid =>
      match threads w !! i with
      | Some {| wt_args := args; wt_recorded := false |} =>
          if leaked w then None
          else
            Some {| store := record_container (w_dc_file args) cid (store w);
                    leaked := false; sched := sched w;
                    threads := <[i := {| wt_args := args;
                                         wt_recorded := true |}]>
                                 (threads w) |}
      | _ => None
      end
  | LWorkerFinish i =>
      match threads w !! i with
      | Some {| wt_args := args; wt_recorded := true |} =>
          if leaked w then None
          else
            Some {| store := process_finish (w_dc_file args) (store w);
                    leaked := false; sched := sched w;
                    threads := delete i (threads w) |}
      | _ => None
      end
  | LStatusRequest =>
      if leaked w then None
      else
        match getJobList (jobs (store w)) with
        | Py.Ok _ => Some w
        | Py.Raise _ =>
            Some {| store := store w; leaked := true; sched := sched w;
                    threads := threads w |}
        end
  end.

(** The world after a sequence of actions. *)
Fixpoint run (ls : list label) (w : World) : option World :=
  match ls with
  | [] => Some w
  | l :: rest =>
      match exec l w with
      | Some w' => run rest w'
      | None => None
      end
  end.

(** The states the daemon can be in. *)
Definition reachable (w : World) : Prop :=
  exists ls, run ls initial_world = Some w.

End Exec.

(** The two equalities between the counters and the job sequence. *)
Definition counters_agree (info : DaemonInfo) : Prop :=
  scheduled_builds info = count_status Queued (jobs info) /\
  running_builds info = count_status Running (jobs info).

#[global] Instance counters_agree_dec info : Decision (counters_agree info).
Proof. unfold counters_agree. apply _. Defined.

(* ===================================================================== *)
(** ** Vocabulary of the statements *)
(* ===================================================================== *)

(** The number of jobs at the front of the sequence that are queued. *)
Fixpoint queued_prefix (l : list Job) : nat :=
  match l with
  | j :: rest => if status j =? 0 then S (queued_prefix rest) else O
  | [] => O
  end.

(** The arguments of the worker started for a job (lines 256-259). *)
Definition worker_of (j : Job) : Worker :=
  {| w_project := job_project j; w_dc_file := dc_file j |}.

(** How many jobs a tick promotes: as many as the free capacity allows,
    and no more than the queued jobs at the front. *)
Definition promoted (max_containers : Z) (info : DaemonInfo) : nat :=
  Nat.min (Z.to_nat (max_containers - running_builds info))
          (queued_prefix (jobs info)).

(** The store's counter never passes the scheduler's local counter,
    which never passes the ceiling; while a started thread waits for its
    promotion the local counter is strictly below the ceiling. *)
Definition ceiling_inv (max_containers : Z) (w : World) : Prop :=
  running_builds (store w) <= max_containers /\
  match sched w with
  | Scanning running _ _ =>
      running_builds (store w) <= running /\ running <= max_containers
  | Starting running _ _ =>
      running_builds (store w) <= running /\ running < max_containers
  | Sleeping | Dead => True
  end.

(** The actions of the scheduler thread. *)
Definition is_sched_label (l : label) : Prop :=
  match l with
  | LSchedRead | LSchedScan | LSchedPromote _ => True
  | _ => False
  end.

(** A worker thread that has just been started. *)
Definition thread_of (args : Worker) : WorkerThread :=
  {| wt_args := args; wt_recorded := false |}.

(** The build-control files of the running jobs, in the order of the
    sequence. *)
Definition running_files (l : list Job) : list string :=
  map dc_file (filter (fun j => status j = Running) l).

(* ===================================================================== *)
(** ** The daemon when scheduler passes are not interrupted *)
(* ===================================================================== *)

(** The store and the workers alive, when every pass of the scheduler
    runs from its snapshot to its end before any other thread acts. *)
Record Atomic : Type := mkAtomic {
  a_store   : DaemonInfo;
  a_workers : list Worker
}.

Definition initial_atomic : Atomic :=
  {| a_store := initial_info; a_workers := [] |}.

Inductive atomic_label : Type :=
| AEnqueue (p : Project) (dc commit_hash : string)
| ATick (clock : nat -> Z)
| ARecord (i : nat) (cid : string)
| AFinish (i : nat).

Definition atomic_exec (max_containers : Z) (l : atomic_label) (a : Atomic)
  : option Atomic :=
  match l with
  | AEnqueue p dc c =>
      Some {| a_store := enqueue (new_job p dc c) (a_store a);
              a_workers := a_workers a |}
  | ATick clock =>
      match jobManager_tick max_containers clock (a_store a) with
      | Py.Ok (s, started) =>
          Some {| a_store := s; a_workers := a_workers a ++ started |}
      | Py.Raise _ => None
      end
  | ARecord i cid =>
      match a_workers a !! i with
      | Some args =>
          Some {| a_store := record_container (w_dc_file args) cid (a_store a);
                  a_workers := a_workers a |}
      | None => None
      end
  | AFinish i =>
      match a_workers a !! i with
      | Some args =>
          Some {| a_store := process_finish (w_dc_file args) (a_store a);
                  a_workers := delete i (a_workers a) |}
      | None => None
      end
  end.

Fixpoint atomic_run (max_containers : Z) (ls : list atomic_label)
  (a : Atomic) : option Atomic :=
  match ls with
  | [] => Some a
  | l :: rest =>
      match atomic_exec max_containers l a with
      | Some a' => atomic_run max_containers rest a'
      | None => None
      end
  end.

(** The counters agree with the sequence, and the workers alive are those
    of the running jobs. *)
Definition atomic_inv (a : Atomic) : Prop :=
  counters_agree (a_store a) /\
  map w_dc_file (a_workers a) ≡ₚ running_files (jobs (a_store a)).

(** The projection of a job that the status reply shows. *)
Definition view_of (j : Job) (t : Z) : JobView :=
  {| v_project := project (job_project j);
     v_branch := vcs_branch (job_project j);
     v_dc_file := dc_file j;
     v_status := status j;
     v_commit := commit j;
     v_time_started := t |}.

(** The result dictionary of a format once the metadata of the build has
    been merged into it (line 360). *)
Definition merged_result (c : Container) (dc f : string)
  : gmap string rval :=
  doc_info c dc f ∪ delete "archive_name" (buildDocumentation c dc f).

(** The dictionary written to [build_info.json] (lines 364-369). *)
Definition final_result (debug : bool) (c : Container) (dc f : string)
  : gmap string rval :=
  if debug then <["container_id" := RStr (getContainerID c)]>
                  (merged_result c dc f)
  else delete "dapscmd" (merged_result c dc f).

(** The build environment answers as its contract says: the result names
    an archive, carries the build command, a status, a log text, and the
    build-control file and format it was asked to build. *)
Record reports (debug : bool) (c : Container) (dc f : string)
  (build_status : rval) (log : string) (archive : rval) : Prop :=
  mkReports {
    rep_archive :
      buildDocumentation c dc f !! "archive_name" = Some archive;
    rep_dapscmd :
      debug = false -> is_Some (merged_result c dc f !! "dapscmd");
    rep_status :
      merged_result c dc f !! "build_status" = Some build_status;
    rep_dc_file :
      merged_result c dc f !! "dc_file" = Some (RStr dc);
    rep_format :
      merged_result c dc f !! "format" = Some (RStr f);
    rep_log :
      merged_result c dc f !! "build_log" = Some (RStr log)
  }.

(** The sends of one notification (lines 398-402 and 427-431). *)
Definition notification_events (irc_config : IrcConfig) (p : Project)
  (message : string) : list event :=
  map (fun client => EvClientMessage client message) (notifications p) ++
  (if irc_channel_messages irc_config then [EvChannelMessage message]
   else []).

Section Traces.

Variables BUILDS_DIR LOG_DIR hostname : string.
Variables debug ircbot : bool.
Variable irc_config : IrcConfig.
Variable now : string -> Z.

(** Where the log of a failed build goes. *)
Definition failure_log_path (dc f : string) : string :=
  LOG_DIR +:+ "/build_fail_" +:+ dc +:+ "_" +:+ f +:+ "_" +:+
  Py.str_of_int (now f) +:+ ".log".

(** What the worker does for a format whose build failed. *)
Definition failure_events (p : Project) (dc f log : string)
  : list event :=
  [EvBuild dc f; EvExecute "cat /tmp/doc_info.json";
   EvOpen (failure_log_path dc f);
   EvWrite (failure_log_path dc f) log] ++
  (if ircbot && irc_inform_build_fail irc_config
   then notification_events irc_config p
          (fail_message hostname (RStr dc) (RStr f)
             (failure_log_path dc f))
   else []).

(** What the worker does for a format whose build succeeded. *)
Definition success_events (c : Container) (p : Project)
  (dc f : string) (archive : rval) : list event :=
  [EvBuild dc f; EvExecute "cat /tmp/doc_info.json";
   EvFileCreate "/tmp/build_info.json" (final_result debug c dc f);
   EvExecute ("tar -C /tmp --append --file=" +:+ rval_str archive +:+
              " build_info.json");
   EvExecute ("gzip " +:+ rval_str archive);
   EvFetch (rval_str archive +:+ ".gz")
           (BUILDS_DIR +:+ "/" +:+ archive_file_name (now f) dc f)] ++
  (if ircbot && irc_inform_build_success irc_config
   then notification_events irc_config p
          (success_message hostname (RStr dc) (RStr f)
             (archive_file_name (now f) dc f))
   else []).

End Traces.

(** The stored revision of a project is the tip of its branch. *)
Definition up_to_date (upstream : string -> string -> string)
  (p : Project) : Prop :=
  vcs_lastrev p = upstream (repo p) (vcs_branch p).

(* ===================================================================== *)
(** ** Sample data *)
(* ===================================================================== *)

Module Sample.

Definition book : Project :=
  {| project := "book"; repo := "/srv/book"; vcs_branch := "master";
     vcs_lastrev := "c0"; vcs_repodir := "/srv/book";
     dc_files := ["DC-a"; "DC-b"]; notifications := ["alice"] |}.

Definition queued (dc : string) : Job := new_job book dc "c1".

Definition running (dc : string) : Job := set_running (queued dc) 10.

(** The queue [Queued, Queued, Running, Queued]. *)
Definition blocked_queue : DaemonInfo :=
  {| jobs := [queued "DC-a"; queued "DC-b"; running "DC-c"; queued "DC-d"];
     scheduled_builds := 3; running_builds := 1 |}.

Definition clock (idx : nat) : Z := 100 + Z.of_nat idx.

(** A revision is detected, and the scheduler promotes its first job. *)
Definition promote_trace : list label :=
  [LEnqueue book "DC-a" "c1"; LEnqueue book "DC-b" "c1";
   LSchedRead; LSchedScan; LSchedPromote 100].

Definition promoted_world : World :=
  Eval vm_compute in
    default initial_world (run 2 promote_trace initial_world).

(** The worker started for a job runs to its end before the scheduler
    takes the lock to mark the job as running. *)
Definition race_trace : list label :=
  [LEnqueue book "DC-a" "c1";
   LSchedRead; LSchedScan;
   LWorkerRecord 0 "cid"; LWorkerFinish 0;
   LSchedPromote 100; LSchedScan].

(** The store after a revision of [book] has been detected. *)
Definition detected : DaemonInfo :=
  enqueue (queued "DC-b") (enqueue (queued "DC-a") initial_info).

(** A build environment in which the [html] build fails and the other
    builds succeed. *)
Definition result_of (dc f : string) : gmap string rval :=
  <["archive_name" := RStr ("/tmp/" +:+ f +:+ ".tar")]>
  (<["build_status" := RBool (negb (String.eqb f "html"))]>
  (<["build_log" := RStr ("log of " +:+ f)]>
  (<["dapscmd" := RStr "daps"]>
  (<["dc_file" := RStr dc]>
  (<["format" := RStr f]> ∅))))).

Definition container : Container :=
  {| getContainerID := "cid";
     buildDocumentation := result_of;
     doc_info := fun _ _ => <["docname" := RStr "Book"]> ∅ |}.

Definition irc : IrcConfig :=
  {| irc_inform_build_success := true; irc_inform_build_fail := true;
     irc_channel_messages := false |}.

Definition now (f : string) : Z := 1000000.

(** The tip of every tracked branch is the commit [c1]. *)
Definition upstream (repository branch : string) : string := "c1".

(** [book] after the commit [c1] has been seen. *)
Definition book_seen : Project := set_lastrev book "c1".

(** The request [{"id": 1}]. *)
Definition status_request : option Json.value :=
  Some (Json.Obj [("id", Json.Int 1)]).

(** A configuration whose check interval is not a number. *)
Definition bad_interval (key : string) : option string :=
  if String.eqb key "daemon_check_interval" then Some "often" else None.

(** A configuration without any of the daemon's settings. *)
Definition no_settings (key : string) : option string := None.

(** With two containers allowed, the first worker ends, and its job is
    popped, while the scheduler is about to promote the second job at the
    position it had in the snapshot. *)
Definition shift_trace : list label :=
  [LEnqueue book "DC-a" "c1"; LEnqueue book "DC-b" "c1";
   LSchedRead; LSchedScan; LSchedPromote 100; LSchedScan;
   LWorkerRecord 0 "cid"; LWorkerFinish 0;
   LSchedPromote 101].

Definition race_world : World :=
  Eval vm_compute in
    default initial_world (run 1 race_trace initial_world).

End Sample.

(* ===================================================================== *)
(** ** Status API: one connection *)
(* ===================================================================== *)

(** A message received on a connection: what [json.loads] makes of it,
    and the store as it is in the two critical sections that serve it. *)
Record Received : Type := mkReceived {
  rc_counters : DaemonInfo;
  rc_jobs     : DaemonInfo;
  rc_parsed   : option Json.value
}.

(** How the coroutine of a connection ends. *)
Inductive ending : Type :=
| ClientClosed               (* [recv] raised [ConnectionClosed], line 156 *)
| ServerClosed               (* [websocket.close()], then [return] *)
| Crashed (e : Py.exn).      (* an exception left the coroutine *)

Definition handle (m : Received) : outcome :=
  _api_server_runtime (rc_counters m) (rc_jobs m) (rc_parsed m).

(** The [while True] loop of [_api_server_runtime] (lines 152-191) over
    the messages the client sends before it closes the connection: the
    replies sent, in order, and the way the coroutine ends. *)
Fixpoint api_connection (msgs : list Received) : list StatusReply * ending :=
  match msgs with
  | [] => ([], ClientClosed)
  | m :: rest =>
      match handle m with
      | Reply r => let '(rs, e) := api_connection rest in (r :: rs, e)
      | Close => ([], ServerClosed)
      | Escapes e => ([], Crashed e)
      end
  end.

(* ===================================================================== *)
(** ** Startup: [execute], [_preperation] and what they call *)
(* ===================================================================== *)

(** [self._irc_config] as [loadIRCBotConfig] fills it. *)
Record IrcSettings : Type := mkIrcSettings {
  irc_server       : option string;
  irc_server_port  : Z;
  irc_channel      : string;
  irc_bot_nickname : option string;
  irc_bot_username : option string;
  irc_flags        : IrcConfig
}.

(** ["{}".format(x)] for a string or [None]. *)
Definition format_opt (x : option string) : string :=
  match x with
  | Some s => s
  | None => "None"
  end.

(** [True if x == "true" else False]. *)
Definition is_true (x : option string) : bool :=
  match x with
  | Some s => String.eqb s "true"
  | None => false
  end.

(** The truth value of a string or [None] in [if x] and [not x]. *)
Definition nonempty (x : option string) : bool :=
  match x with
  | Some s => negb (String.eqb s "")
  | None => false
  end.

(** [loadIRCBotConfig] (lines 542-553): [int] is applied to the port with
    no [try] around it. *)
Definition loadIRCBotConfig (get_prop : string -> option string)
  : Py.res IrcSettings :=
  let server := get_prop "irc_server" in
  match PyInt.int (get_prop "irc_server_port") with
  | Py.Raise e => Py.Raise e
  | Py.Ok port =>
      Py.Ok {| irc_server := server;
               irc_server_port := port;
               irc_channel := "#" +:+ format_opt (get_prop "irc_channel");
               irc_bot_nickname := get_prop "irc_bot_nickname";
               irc_bot_username := get_prop "irc_bot_username";
               irc_flags :=
                 {| irc_inform_build_success :=
                      is_true (get_prop "irc_inform_build_success");
                    irc_inform_build_fail :=
                      is_true (get_prop "irc_inform_build_fail");
                    irc_channel_messages :=
                      is_true (get_prop "irc_channel_messages") |} |}
  end.

(** An entry of [grp.getgrall()]. *)
Record Group : Type := mkGroup {
  gr_name : string;
  gr_mem  : list string
}.

(** The loop of lines 522-526. *)
Fixpoint user_in_docker_group (user : string) (groups : list Group) : bool :=
  match groups with
  | [] => false
  | group :: rest =>
      if String.eqb (gr_name group) "docker" then
        if bool_decide (user ∈ gr_mem group) then true
        else user_in_docker_group user rest
      else user_in_docker_group user rest
  end.

(** What ends [execute] before the daemon runs. *)
Inductive stop : Type :=
| Uncaught (e : Py.exn)
| AutoBuildConfigurationErrorException
| UserNotInDockerGroupException
| DockerImageMissingException
| GitInvalidRepoException
| SysExit (code : Z).

Inductive startup (A : Type) : Type :=
| Done (a : A)
| Stopped (s : stop).
Arguments Done {A} a.
Arguments Stopped {A} s.

(** The command-line arguments read by [_preperation]. *)
Record Args : Type := mkArgs {
  use_irc          : bool;
  no_output        : bool;
  arg_debug        : bool;
  autobuild_config : option string
}.

(** The attributes [_preperation] sets. *)
Record Prepared (Cfg : Type) : Type := mkPrepared {
  p_settings            : Settings;
  p_irc_config          : IrcSettings;
  p_autoBuildConfigFile : option string;
  p_autoBuildConfig     : Cfg;
  p_projects            : list Project;
  p_daemon_info         : DaemonInfo
}.
Arguments mkPrepared {Cfg}.
Arguments p_settings {Cfg}.
Arguments p_irc_config {Cfg}.
Arguments p_autoBuildConfigFile {Cfg}.
Arguments p_autoBuildConfig {Cfg}.
Arguments p_projects {Cfg}.
Arguments p_daemon_info {Cfg}.

(** The threads [execute] starts. *)
Inductive service : Type :=
| IrcBotThread
| ApiServerThread
| JobManagerThread.

Section Startup.

(** The constants of [dapsenv.general] and [dapsenv.exitcodes]. *)
Variables DAEMON_DEFAULT_INTERVAL DAEMON_DEFAULT_MAX_CONTAINERS
          API_SERVER_DEFAULT_PORT : Z.
Variables E_INVALID_GIT_REPO E_DOCKER_IMAGE_MISSING : Z.

(** [configmanager.get_prop]. *)
Variable get_prop : string -> option string.

(** The collaborator [dapsenv.autobuildconfig]: its constructor, and
    [fetchProjects]. *)
Variable Cfg : Type.
Variable AutoBuildConfig : string -> startup Cfg.
Variable fetchProjects : Cfg -> startup (list Project).

(** The name of the user, the groups of the system, and the answer of
    [is_image_imported(CONTAINER_IMAGE)]. *)
Variable user : string.
Variable groups : list Group.
Variable is_image_imported : bool.

(** [loadAutoBuildConfig] (lines 475-484). *)
Definition loadAutoBuildConfig (path : option string) : startup Cfg :=
  match path with
  | Some file =>
      if String.eqb file "" then Stopped AutoBuildConfigurationErrorException
      else AutoBuildConfig file
  | None => Stopped AutoBuildConfigurationErrorException
  end.

(** [_preperation] (lines 69-113). *)
Definition _preperation (args : Args) : startup (Prepared Cfg) :=
  match loadDaemonSettings DAEMON_DEFAULT_INTERVAL
          DAEMON_DEFAULT_MAX_CONTAINERS API_SERVER_DEFAULT_PORT get_prop with
  | Py.Raise e => Stopped (Uncaught e)
  | Py.Ok settings =>
      match loadIRCBotConfig get_prop with
      | Py.Raise e => Stopped (Uncaught e)
      | Py.Ok irc =>
          let file :=
            if nonempty (autobuild_config args) then autobuild_config args
            else get_prop "daps_autobuild_config" in
          match loadAutoBuildConfig file with
          | Stopped s => Stopped s
          | Done cfg =>
              match fetchProjects cfg with
              | Stopped GitInvalidRepoException =>
                  Stopped (SysExit E_INVALID_GIT_REPO)
              | Stopped s => Stopped s
              | Done projects =>
                  Done {| p_settings := settings;
                          p_irc_config := irc;
                          p_autoBuildConfigFile := file;
                          p_autoBuildConfig := cfg;
                          p_projects := projects;
                          p_daemon_info := initial_info |}
              end
          end
      end
  end.

(** [checkRequirements] (lines 514-533). *)
Definition checkRequirements : startup unit :=
  if negb (user_in_docker_group user groups) then
    Stopped UserNotInDockerGroupException
  else if negb is_image_imported then Stopped DockerImageMissingException
  else Done tt.

(** [_checkDockerImage] (lines 115-123). *)
Definition _checkDockerImage : startup unit :=
  match checkRequirements with
  | Stopped DockerImageMissingException =>
      Stopped (SysExit E_DOCKER_IMAGE_MISSING)
  | r => r
  end.

(** [_start_ircbot] and [_api_server_start] (lines 125-128 and 208-218):
    the threads they start. *)
Definition _start_ircbot (args : Args) : list service :=
  if use_irc args then [IrcBotThread] else [].

Definition _api_server_start (settings : Settings) : list service :=
  if is_true (_api_server settings) then [ApiServerThread] else [].

(** [execute] (lines 48-67) up to the point where [start] has started the
    scheduler thread: what was prepared and the threads running. *)
Definition execute (args : Args) : startup (Prepared Cfg * list service) :=
  match _preperation args with
  | Stopped s => Stopped s
  | Done prepared =>
      match _checkDockerImage with
      | Stopped s => Stopped s
      | Done _ =>
          Done (prepared,
                _start_ircbot args ++
                _api_server_start (p_settings prepared) ++
                [JobManagerThread])
      end
  end.

End Startup.

(* ===================================================================== *)
(** ** Further vocabulary *)
(* ===================================================================== *)

(** A project as the detection pass leaves it: its stored revision is the
    tip of its branch. *)
Definition refreshed (upstream : string -> string -> string) (p : Project)
  : Project :=
  set_lastrev p (upstream (repo p) (vcs_branch p)).

(** The jobs one detection pass appends for a project: none when the
    revision is the stored one, else one queued job per build-control
    file, in the order of [dc_files]. *)
Definition detected_jobs (upstream : string -> string -> string)
  (p : Project) : list Job :=
  if String.eqb (vcs_lastrev p) (upstream (repo p) (vcs_branch p)) then []
  else map (fun dc => new_job (refreshed upstream p) dc
                               (upstream (repo p) (vcs_branch p)))
           (dc_files p).

(** The calls of [updateCommitHash] one pass makes for a project. *)
Definition detected_updates (upstream : string -> string -> string)
  (p : Project) : list ConfigUpdate :=
  if String.eqb (vcs_lastrev p) (upstream (repo p) (vcs_branch p)) then []
  else [(project p, upstream (repo p) (vcs_branch p))].



(** Nothing was ever started: the scheduler sleeps, no worker is alive and
    every job is as the detector enqueued it. *)
Definition idle_inv (w : World) : Prop :=
  sched w = Sleeping /\ threads w = [] /\
  running_builds (store w) = 0 /\
  scheduled_builds (store w) = Z.of_nat (length (jobs (store w))) /\
  Forall (fun j => status j = Queued /\ time_started j = None /\
                   container_id j = "") (jobs (store w)).

(** What a job shows besides its container id. *)
Definition job_identity (j : Job)
  : Project * string * string * Z * option Z :=
  (job_project j, dc_file j, commit j, status j, time_started j).

(** The running jobs come first: no queued job stands before a running
    one. *)
Definition running_first (l : list Job) : Prop :=
  exists front back : list Job,
    l = front ++ back /\
    Forall (fun j => status j = Running) front /\
    Forall (fun j => status j = Queued) back.

(** A job is as the detector appended it, or as a promotion left it. *)
Definition job_shape (j : Job) : Prop :=
  (status j = Queued /\ time_started j = None) \/
  (status j = Running /\ is_Some (time_started j)).

(** The events of the loop over the formats: all but the creation of the
    container, its preparation, its removal and the two critical
    sections. *)
Definition build_event (e : event) : Prop :=
  match e with
  | EvSpawn | EvRecordContainer _ _ | EvPrepare _ | EvFinish _ | EvKill =>
      False
  | _ => True
  end.

(** A file created in the container is [/tmp/build_info.json], and it
    holds the final result of a format whose build status is true. *)
Definition build_info_event (debug : bool) (c : Container) (dc : string)
  (e : event) : Prop :=
  match e with
  | EvFileCreate path d =>
      path = "/tmp/build_info.json" /\
      exists (f : string) (v : rval),
        f ∈ build_formats /\ d = final_result debug c dc f /\
        d !! "build_status" = Some v /\ truthy v = true
  | _ => True
  end.

(** The first three events of every worker. *)
Definition process_prologue (c : Container) (p : Project) (dc : string)
  : list event :=
  [EvSpawn; EvRecordContainer dc (getContainerID c);
   EvPrepare (vcs_repodir p)].

(** Whether a received message gets a reply. *)
Definition answered (m : Received) : bool :=
  match handle m with
  | Reply _ => true
  | _ => false
  end.

(* ===================================================================== *)
(** ** Further sample data *)
(* ===================================================================== *)

Module Fixture.

(** The daemon just after a revision of [Sample.book] was detected. *)
Definition detected_world : World :=
  {| store := Sample.detected; leaked := false; sched := Sleeping;
     threads := [] |}.

(** The lock was lost to a status request while the scheduler stood at
    the head of its loop. *)
Definition wedged_world : World :=
  {| store := Sample.detected; leaked := true;
     sched := Scanning 0 (jobs Sample.detected) 0; threads := [] |}.

Definition wedged_next : World :=
  Eval vm_compute in
    default initial_world (run 2 [LSchedScan] wedged_world).

(** Both jobs of [Sample.detected] have been promoted. *)
Definition all_running : list label :=
  [LEnqueue Sample.book "DC-a" "c1"; LEnqueue Sample.book "DC-b" "c1";
   LSchedRead; LSchedScan; LSchedPromote 100; LSchedScan; LSchedPromote 101].

Definition all_running_world : World :=
  Eval vm_compute in
    default initial_world (run 2 all_running initial_world).

(** With five containers allowed, a job is started and a second one is
    detected while the first is being built. *)
Definition late_arrival : list atomic_label :=
  [AEnqueue Sample.book "DC-a" "c1"; ATick Sample.clock;
   AEnqueue Sample.book "DC-b" "c2"].

Definition late_arrival_state : Atomic :=
  Eval vm_compute in
    default initial_atomic (atomic_run 5 late_arrival initial_atomic).

(** A build environment whose results succeed but do not carry the build
    command. *)
Definition terse_result (dc f : string) : gmap string rval :=
  <["archive_name" := RStr "/tmp/out.tar"]>
  (<["build_status" := RBool true]> ∅).

Definition terse_container : Container :=
  {| getContainerID := "cid";
     buildDocumentation := terse_result;
     doc_info := fun _ _ => ∅ |}.

(** A configuration that names the IRC port and the auto build
    configuration file, and nothing else. *)
Definition configured (key : string) : option string :=
  if String.eqb key "irc_server_port" then Some "6667"
  else if String.eqb key "daps_autobuild_config"
       then Some "/etc/autobuild.xml"
       else None.

(** An auto build configuration that is read without error and tracks
    [Sample.book]. *)
Definition open_config (file : string) : startup string := Done file.

Definition fetch (cfg : string) : startup (list Project) :=
  Done [Sample.book].

Definition plain_args : Args :=
  {| use_irc := false; no_output := false; arg_debug := false;
     autobuild_config := None |}.

(** The request [{"id": 1}] received while the store is empty, and a
    message that is not JSON. *)
Definition ask : Received :=
  {| rc_counters := initial_info; rc_jobs := initial_info;
     rc_parsed := Sample.status_request |}.

Definition garbage : Received :=
  {| rc_counters := initial_info; rc_jobs := initial_info;
     rc_parsed := None |}.

(** The groups of a system on which [alice] may use Docker. *)
Definition system_groups : list Group :=
  [{| gr_name := "wheel"; gr_mem := ["root"] |};
   {| gr_name := "docker"; gr_mem := ["bob"; "alice"] |}].

End Fixture.

(* ===================================================================== *)
(** * Properties *)
(* ===================================================================== *)

(** ** Scheduler *)

Section TickFacts.

Variable max_containers : Z.
Variable clock : nat -> Z.

Lemma scan_body_start running job :
  running < max_containers -> status job = 0 ->
  scan_body max_containers running job = Start (worker_of job).
Proof.
  intros Hr Hs. unfold scan_body.
  destruct (Z.geb_spec running max_containers); [lia|].
  rewrite Hs. reflexivity.
Qed.

Lemma scan_body_full running job :
  max_containers <= running ->
  scan_body max_containers running job = Break.
Proof.
  intros Hr. unfold scan_body.
  destruct (Z.geb_spec running max_containers); [reflexivity|lia].
Qed.

Lemma scan_body_blocked running job :
  status job <> 0 -> scan_body max_containers running job = Break.
Proof.
  intros Hs. unfold scan_body.
  destruct (running >=? max_containers); [reflexivity|].
  destruct (Z.eqb_spec (status job) 0); [contradiction|reflexivity].
Qed.

(** The loop, started at position [length pre] of a live list that
    agrees with the snapshot from there on. *)
Lemma scan_spec snapshot : forall pre running live,
  jobs live = pre ++ snapshot ->
  let k := Nat.min (Z.to_nat (max_containers - running))
                   (queued_prefix snapshot) in
  scan max_containers clock snapshot (length pre) running live =
  Py.Ok ({| jobs := pre ++
              imap (fun i j => set_running j (clock (length pre + i)%nat))
                   (take k snapshot) ++ drop k snapshot;
            scheduled_builds := scheduled_builds live - Z.of_nat k;
            running_builds := running_builds live + Z.of_nat k |},
         map worker_of (take k snapshot)).
Proof.
  induction snapshot as [|job rest IH]; intros pre running live Hlive k.
  - subst k. simpl. rewrite Nat.min_0_r.
    destruct live as [l s r]; simpl in *; subst l.
    rewrite app_nil_r, !Z.sub_0_r, !Z.add_0_r. reflexivity.
  - simpl scan.
    destruct (Z.le_gt_cases max_containers running) as [Hfull|Hfree].
    { rewrite scan_body_full by assumption.
      subst k. replace (Z.to_nat (max_containers - running)) with O by lia.
      destruct live as [l s r]; simpl in *; subst l.
      rewrite !Z.sub_0_r, !Z.add_0_r. reflexivity. }
    destruct (Z.eq_dec (status job) 0) as [Hq|Hq].
    2:{ rewrite scan_body_blocked by assumption.
        subst k. simpl queued_prefix.
        destruct (Z.eqb_spec (status job) 0); [contradiction|].
        rewrite Nat.min_0_r.
        destruct live as [l s r]; simpl in *; subst l.
        rewrite !Z.sub_0_r, !Z.add_0_r. reflexivity. }
    rewrite scan_body_start by assumption.
    assert (Hlook : jobs live !! length pre = Some job).
    { rewrite Hlive. rewrite lookup_app_r by lia.
      rewrite Nat.sub_diag. reflexivity. }
    unfold promote_at. rewrite Hlook.
    set (live' := {| jobs := _; scheduled_builds := _; running_builds := _ |}).
    assert (Hlive' : jobs live' =
              (pre ++ [set_running job (clock (length pre))]) ++ rest).
    { subst live'. simpl. rewrite Hlive.
      rewrite insert_app_r_alt by lia. rewrite Nat.sub_diag. simpl.
      rewrite <- app_assoc. reflexivity. }
    specialize (IH _ (running + 1) live' Hlive').
    rewrite length_app in IH. simpl length in IH.
    replace (length pre + 1)%nat with (S (length pre)) in IH by lia.
    cbv zeta in IH. rewrite IH. clear IH.
    subst k. simpl queued_prefix. rewrite Hq. simpl Z.eqb. cbv iota.
    replace (Z.to_nat (max_containers - running))
      with (S (Z.to_nat (max_containers - (running + 1)))) by lia.
    rewrite <- Nat.succ_min_distr.
    set (k := Nat.min _ _).
    simpl take. simpl drop. simpl map. rewrite imap_cons.
    subst live'. simpl.
    f_equal. f_equal.
    + f_equal.
      * rewrite <- app_assoc. simpl. rewrite Nat.add_0_r. f_equal. f_equal.
        f_equal. apply imap_ext. intros i x _. simpl. do 2 f_equal. lia.
      * lia.
      * lia.
Qed.

End TickFacts.

Lemma queued_prefix_take (l : list Job) : forall k : nat,
  (k <= queued_prefix l)%nat ->
  Forall (fun j => status j = Queued) (take k l).
Proof.
  induction l as [|j l IH]; intros k Hk.
  - rewrite take_nil. constructor.
  - destruct k as [|k]; [constructor|].
    simpl in Hk. destruct (Z.eqb_spec (status j) 0) as [Hj|Hj]; [|lia].
    simpl. constructor; [exact Hj|]. apply IH. lia.
Qed.

Lemma queued_prefix_stop (l : list Job) (j : Job) :
  l !! queued_prefix l = Some j -> status j <> Queued.
Proof.
  induction l as [|x l IH]; simpl; [discriminate|].
  destruct (Z.eqb_spec (status x) 0) as [Hx|Hx]; simpl.
  - exact IH.
  - intros [= ->]. exact Hx.
Qed.

Lemma queued_prefix_length (l : list Job) :
  (queued_prefix l <= length l)%nat.
Proof.
  induction l as [|x l IH]; simpl; [lia|].
  destruct (status x =? 0); simpl; lia.
Qed.

(** What a tick run without interference computes: the first
    [promoted] jobs are set running and stamped, the rest of the sequence
    is as before, and one worker is started for each promoted job. *)
Lemma jobManager_tick_spec (max_containers : Z) (clock : nat -> Z)
  (info : DaemonInfo) :
  let k := promoted max_containers info in
  jobManager_tick max_containers clock info =
  Py.Ok ({| jobs := imap (fun i j => set_running j (clock i))
                         (take k (jobs info)) ++ drop k (jobs info);
            scheduled_builds := scheduled_builds info - Z.of_nat k;
            running_builds := running_builds info + Z.of_nat k |},
         map worker_of (take k (jobs info))).
Proof.
  intros k. unfold jobManager_tick.
  destruct (Z.ltb_spec (running_builds info) max_containers) as [Hfree|Hfull].
  - exact (scan_spec max_containers clock (jobs info) [] (running_builds info)
             info eq_refl).
  - subst k. unfold promoted.
    replace (Z.to_nat (max_containers - running_builds info)) with O by lia.
    simpl. rewrite !Z.sub_0_r, !Z.add_0_r. destruct info; reflexivity.
Qed.

(** C1.  Head-of-line scheduling.  For every job sequence and every free
    capacity, one scheduler tick promotes a contiguous prefix of queued
    jobs taken from the front of the sequence and nothing else: the
    promoted jobs were all queued, every job behind them is left as it
    was, and when capacity remains the job the scan stopped at is not
    queued.  In particular, on the queue [Queued, Queued, Running, Queued]
    with free capacity at least 2, the tick promotes exactly the first two
    jobs and leaves the running job and the trailing queued job
    untouched. *)
Theorem tick_head_of_line (max_containers : Z) (clock : nat -> Z) :
  (forall info : DaemonInfo,
      exists k : nat,
        jobManager_tick max_containers clock info =
          Py.Ok ({| jobs := imap (fun i j => set_running j (clock i))
                                 (take k (jobs info)) ++ drop k (jobs info);
                    scheduled_builds := scheduled_builds info - Z.of_nat k;
                    running_builds := running_builds info + Z.of_nat k |},
                 map worker_of (take k (jobs info))) /\
        (k <= length (jobs info))%nat /\
        Forall (fun j => status j = Queued) (take k (jobs info)) /\
        (forall j, running_builds info + Z.of_nat k < max_containers ->
                   jobs info !! k = Some j -> status j <> Queued)) /\
  (forall (info : DaemonInfo) (j1 j2 j3 j4 : Job),
      jobs info = [j1; j2; j3; j4] ->
      status j1 = Queued -> status j2 = Queued ->
      status j3 = Running -> status j4 = Queued ->
      2 <= max_containers - running_builds info ->
      jobManager_tick max_containers clock info =
        Py.Ok ({| jobs := [set_running j1 (clock 0%nat);
                           set_running j2 (clock 1%nat); j3; j4];
                  scheduled_builds := scheduled_builds info - 2;
                  running_builds := running_builds info + 2 |},
               [worker_of j1; worker_of j2])).
Proof.
  split.
  - intros info. exists (promoted max_containers info).
    split; [apply jobManager_tick_spec|].
    assert (Hle : (promoted max_containers info <= queued_prefix (jobs info))%nat)
      by (unfold promoted; lia).
    split; [|split].
    + pose proof (queued_prefix_length (jobs info)). lia.
    + apply queued_prefix_take. exact Hle.
    + intros j Hcap Hj.
      assert (Hk : promoted max_containers info = queued_prefix (jobs info))
        by (unfold promoted in *; lia).
      rewrite Hk in Hj. exact (queued_prefix_stop _ _ Hj).
  - intros info j1 j2 j3 j4 Hjobs H1 H2 H3 H4 Hcap.
    rewrite jobManager_tick_spec.
    assert (Hk : promoted max_containers info = 2%nat).
    { unfold promoted. rewrite Hjobs. simpl.
      rewrite H1, H2, H3. simpl. unfold Running. simpl. lia. }
    rewrite Hk, Hjobs. reflexivity.
Qed.

(** The tick on the sample queue with five containers allowed. *)
Lemma tick_head_of_line_witness :
  jobs Sample.blocked_queue =
    [Sample.queued "DC-a"; Sample.queued "DC-b"; Sample.running "DC-c";
     Sample.queued "DC-d"] /\
  2 <= 5 - running_builds Sample.blocked_queue /\
  jobManager_tick 5 Sample.clock Sample.blocked_queue =
    Py.Ok ({| jobs := [set_running (Sample.queued "DC-a") 100;
                       set_running (Sample.queued "DC-b") 101;
                       Sample.running "DC-c"; Sample.queued "DC-d"];
              scheduled_builds := 1;
              running_builds := 3 |},
           [worker_of (Sample.queued "DC-a");
            worker_of (Sample.queued "DC-b")]).
Proof.
  split; [reflexivity|]. split; [simpl; lia|].
  apply (proj2 (tick_head_of_line 5 Sample.clock) Sample.blocked_queue
           (Sample.queued "DC-a") (Sample.queued "DC-b")
           (Sample.running "DC-c") (Sample.queued "DC-d"));
    [reflexivity | reflexivity | reflexivity | reflexivity | reflexivity
    | simpl; lia].
Defined.

(** ** The concurrency ceiling *)

Section Ceiling.

Variable max_containers : Z.

Lemma record_container_running dc cid info :
  running_builds (record_container dc cid info) = running_builds info.
Proof.
  unfold record_container.
  destruct (list_find _ _) as [[idx j]|]; reflexivity.
Qed.

Lemma ceiling_inv_exec l w w' :
  ceiling_inv max_containers w -> exec max_containers l w = Some w' ->
  ceiling_inv max_containers w'.
Proof.
  unfold ceiling_inv. intros [Hrun Hsched] Hexec.
  destruct l; simpl in Hexec.
  - (* enqueue *)
    destruct (leaked w); [discriminate|]. injection Hexec as <-.
    simpl. split; [exact Hrun|exact Hsched].
  - (* scheduler: snapshot *)
    destruct (sched w) eqn:Hs; try discriminate.
    destruct (leaked w); [discriminate|].
    destruct (Z.ltb_spec (running_builds (store w)) max_containers).
    + injection Hexec as <-. simpl. lia.
    + injection Hexec as <-. rewrite Hs. split; [exact Hrun|exact I].
  - (* scheduler: loop head *)
    destruct (sched w) as [|running snapshot idx| |] eqn:Hs;
      try discriminate.
    destruct snapshot as [|job rest].
    + injection Hexec as <-. simpl. split; [exact Hrun|exact I].
    + unfold scan_body in Hexec.
      destruct (Z.geb_spec running max_containers).
      * injection Hexec as <-. simpl. split; [exact Hrun|exact I].
      * destruct (status job =? 0); injection Hexec as <-; simpl.
        -- lia.
        -- split; [exact Hrun|exact I].
  - (* scheduler: promotion *)
    destruct (sched w) as [| |running rest idx|] eqn:Hs; try discriminate.
    destruct (leaked w); [discriminate|].
    unfold promote_at in Hexec.
    destruct (jobs (store w) !! idx); injection Hexec as <-; simpl.
    + lia.
    + split; [exact Hrun|exact I].
  - (* worker: container id *)
    destruct (threads w !! i) as [[args [|]]|]; try discriminate.
    destruct (leaked w); [discriminate|]. injection Hexec as <-. simpl.
    rewrite record_container_running. split; [exact Hrun|exact Hsched].
  - (* worker: completion *)
    destruct (threads w !! i) as [[args [|]]|]; try discriminate.
    destruct (leaked w); [discriminate|]. injection Hexec as <-. simpl.
    split; [lia|]. destruct (sched w); lia.
  - (* status request *)
    destruct (leaked w); [discriminate|].
    destruct (getJobList _); injection Hexec as <-; simpl;
      (split; [exact Hrun|exact Hsched]).
Qed.

Lemma ceiling_inv_run ls : forall w w',
  ceiling_inv max_containers w -> run max_containers ls w = Some w' ->
  ceiling_inv max_containers w'.
Proof.
  induction ls as [|l ls IH]; intros w w' Hinv Hrun; simpl in Hrun.
  - injection Hrun as <-. exact Hinv.
  - destruct (exec max_containers l w) as [w1|] eqn:Hexec; [|discriminate].
    exact (IH _ _ (ceiling_inv_exec _ _ _ Hinv Hexec) Hrun).
Qed.

End Ceiling.

(** C2.  In every state the daemon reaches, by whatever interleaving of
    the detector's enqueues, the scheduler's snapshot, thread starts and
    promotions, and the workers' critical sections, the running-builds
    counter is at most the configured maximum number of containers (a
    number of containers, so not negative). *)
Theorem running_builds_bounded (max_containers : Z) (w : World) :
  0 <= max_containers ->
  reachable max_containers w ->
  running_builds (store w) <= max_containers.
Proof.
  intros Hmax [ls Hrun].
  assert (Hinit : ceiling_inv max_containers initial_world)
    by (split; [exact Hmax|exact I]).
  exact (proj1 (ceiling_inv_run max_containers ls _ _ Hinit Hrun)).
Qed.

(** A world reached with two containers allowed. *)
Lemma running_builds_bounded_witness :
  0 <= 2 /\
  reachable 2 Sample.promoted_world /\
  running_builds (store Sample.promoted_world) <= 2.
Proof.
  assert (Hreach : reachable 2 Sample.promoted_world)
    by (exists Sample.promote_trace; reflexivity).
  split; [lia|]. split; [exact Hreach|].
  apply (running_builds_bounded 2 Sample.promoted_world); [lia|exact Hreach].
Defined.

(** ** The counters and the job sequence *)

Lemma count_status_app (s : Z) (l1 l2 : list Job) :
  count_status s (l1 ++ l2) = count_status s l1 + count_status s l2.
Proof.
  unfold count_status. rewrite filter_app, length_app. lia.
Qed.

Lemma count_status_cons (s : Z) (j : Job) (l : list Job) :
  count_status s (j :: l) =
  (if decide (status j = s) then 1 else 0) + count_status s l.
Proof.
  unfold count_status. rewrite filter_cons.
  destruct (decide (status j = s)); simpl length; lia.
Qed.

Lemma count_status_nil (s : Z) : count_status s [] = 0.
Proof. reflexivity. Qed.

(** Appending a new job keeps both equalities. *)
Lemma enqueue_counters (p : Project) (dc c : string) (info : DaemonInfo) :
  counters_agree info -> counters_agree (enqueue (new_job p dc c) info).
Proof.
  unfold counters_agree, enqueue. simpl. intros [Hq Hr].
  rewrite !count_status_app, !count_status_cons, !count_status_nil. simpl.
  unfold Queued, Running in *.
  destruct (decide (0 = 0)); [|contradiction].
  destruct (decide (0 = 1)); [discriminate|]. lia.
Qed.

(** A promotion keeps both equalities when the job found at the position
    in the live list is queued. *)
Lemma promote_at_counters (idx : nat) (now : Z) (info info' : DaemonInfo)
  (j : Job) :
  counters_agree info ->
  jobs info !! idx = Some j -> status j = Queued ->
  promote_at idx now info = Py.Ok info' ->
  counters_agree info'.
Proof.
  unfold counters_agree, promote_at. intros [Hq Hr] Hj Hs Hp.
  rewrite Hj in Hp. injection Hp as <-. simpl.
  rewrite insert_take_drop by (eapply lookup_lt_Some; exact Hj).
  rewrite <- (take_drop_middle _ _ _ Hj) in Hq, Hr.
  rewrite !count_status_app, !count_status_cons in *. simpl.
  rewrite Hs in *. unfold Queued, Running in *.
  repeat match goal with
         | H : context [decide ?P] |- _ => destruct (decide P); try discriminate
         | |- context [decide ?P] => destruct (decide P); try discriminate
         end; try contradiction; lia.
Qed.

(** A completion keeps both equalities when the sequence holds a running
    job of the worker's build-control file. *)
Lemma process_finish_counters (dc : string) (info : DaemonInfo) :
  counters_agree info ->
  (exists j, j ∈ jobs info /\ job_matches dc j) ->
  counters_agree (process_finish dc info).
Proof.
  unfold counters_agree, process_finish. intros [Hq Hr] [j [Hin Hm]]. simpl.
  destruct (list_find (job_matches dc) (jobs info)) as [[idx x]|] eqn:Hfind.
  - apply list_find_Some in Hfind as (Hx & [_ Hsx] & _).
    rewrite delete_take_drop.
    rewrite <- (take_drop_middle _ _ _ Hx) in Hq, Hr.
    rewrite !count_status_app, !count_status_cons in *.
    rewrite Hsx in *. unfold Queued, Running in *.
    repeat match goal with
           | H : context [decide ?P] |- _ => destruct (decide P); try discriminate
           end; try contradiction; lia.
  - exfalso. apply list_find_None in Hfind.
    rewrite Forall_forall in Hfind. exact (Hfind j Hin Hm).
Qed.

(** Without such a job the completion still decrements the counter, and
    the second equality is lost. *)
Lemma process_finish_unmatched (dc : string) (info : DaemonInfo) :
  counters_agree info ->
  Forall (fun j => ~ job_matches dc j) (jobs info) ->
  ~ counters_agree (process_finish dc info).
Proof.
  unfold counters_agree, process_finish. intros [Hq Hr] Hnone [_ Hr']. simpl in *.
  apply (proj2 (list_find_None _ _)) in Hnone. rewrite Hnone in Hr'. lia.
Qed.

(** C3.  The worker of a job is started (line 262) before the scheduler
    takes the lock and marks the job as running (lines 265-274).  When
    that worker reaches its last critical section first, it decrements
    the running counter and finds no running job to remove; the promotion
    then marks the job as running.  The daemon is left with no worker, one
    job with status Running and a running counter of 0: the running
    counter no longer equals the number of running jobs. *)
Theorem counters_diverge_on_early_completion :
  run 1 Sample.race_trace initial_world = Some Sample.race_world /\
  reachable 1 Sample.race_world /\
  threads Sample.race_world = [] /\
  running_builds (store Sample.race_world) = 0 /\
  count_status Running (jobs (store Sample.race_world)) = 1 /\
  ~ counters_agree (store Sample.race_world).
Proof.
  assert (Hrun : run 1 Sample.race_trace initial_world = Some Sample.race_world)
    by reflexivity.
  split; [exact Hrun|]. split; [exists Sample.race_trace; exact Hrun|].
  split; [reflexivity|]. split; [reflexivity|]. split; [reflexivity|].
  intros [_ Hr]. vm_compute in Hr. discriminate.
Qed.

(** The promotion addresses the live list by the position found in the
    snapshot.  When a job before that position has been popped in the
    meantime, the position is past the end of the live list: line 269
    raises [IndexError], the scheduler thread ends, and the lock it holds
    is never released. *)
Lemma scheduler_dies_on_shifted_index :
  exists w,
    run 2 Sample.shift_trace initial_world = Some w /\
    sched w = Dead /\ leaked w = true /\
    jobs (store w) = [Sample.queued "DC-b"] /\
    forall l, exec 2 l w = None.
Proof.
  eexists. split; [reflexivity|]. repeat split.
  intros l. destruct l; try reflexivity.
  - simpl. destruct i as [|[|i]]; reflexivity.
  - simpl. destruct i as [|[|i]]; reflexivity.
Qed.

(** ** Status API *)

(** When every job carries a start time, the list holds the reduced view
    of every job, in the order of the sequence. *)
Lemma getJobList_started (l : list Job) :
  Forall (fun j => is_Some (time_started j)) l ->
  getJobList l =
  Py.Ok (map (fun j => view_of j (default 0 (time_started j))) l).
Proof.
  induction 1 as [|j l [t Ht] _ IH]; [reflexivity|].
  simpl. rewrite Ht, IH. reflexivity.
Qed.

(** A job without start time makes [getJobList] raise. *)
Lemma getJobList_unstarted (l : list Job) :
  Exists (fun j => time_started j = None) l ->
  getJobList l = Py.Raise (Py.KeyError "time_started").
Proof.
  induction 1 as [j l Hj|j l _ IH]; simpl.
  - rewrite Hj. reflexivity.
  - destruct (time_started j); [|reflexivity]. rewrite IH. reflexivity.
Qed.

(** The reply to a request whose id equals 1, when every job has been
    promoted. *)
Lemma status_reply_started (at_counters at_jobs : DaemonInfo)
  (members : list (string * Json.value)) (id : Json.value) :
  Json.dict_get "id" members = Some id -> Json.eq_one id = true ->
  Forall (fun j => is_Some (time_started j)) (jobs at_jobs) ->
  _api_server_runtime at_counters at_jobs (Some (Json.Obj members)) =
  Reply {| r_id := id;
           r_running_builds := running_builds at_counters;
           r_scheduled_builds := scheduled_builds at_counters;
           r_jobs := map (fun j => view_of j (default 0 (time_started j)))
                         (jobs at_jobs) |}.
Proof.
  intros Hid Hone Hstarted.
  unfold _api_server_runtime, Json.contains, Json.subscript.
  rewrite Hid, Hone.
  rewrite bool_decide_eq_true_2 by (eexists; reflexivity).
  rewrite getJobList_started by assumption. reflexivity.
Qed.

(** C4.  A job enqueued by the detector has no start time until the
    scheduler promotes it.  With such a job in the sequence
    [getJobList] raises [KeyError] on [job["time_started"]]; the
    exception is not a [ValueError], so it leaves the coroutine and the
    request [{"id": 1}] gets no reply. *)
Theorem status_request_with_queued_job :
  jobs Sample.detected = [Sample.queued "DC-a"; Sample.queued "DC-b"] /\
  getJobList (jobs Sample.detected) = Py.Raise (Py.KeyError "time_started") /\
  _api_server_runtime Sample.detected Sample.detected Sample.status_request =
    Escapes (Py.KeyError "time_started") /\
  exec 2 LStatusRequest
       {| store := Sample.detected; leaked := false; sched := Sleeping;
          threads := [] |} =
    Some {| store := Sample.detected; leaked := true; sched := Sleeping;
            threads := [] |}.
Proof. repeat split. Qed.

(** ** Settings *)

Section SettingsFacts.

Variables DAEMON_DEFAULT_INTERVAL DAEMON_DEFAULT_MAX_CONTAINERS
          API_SERVER_DEFAULT_PORT : Z.
Variable get_prop : string -> option string.

(** An absent property yields the default. *)
Lemma int_or_default_absent key default :
  get_prop key = None -> int_or_default get_prop key default = Py.Ok default.
Proof. unfold int_or_default. intros ->. reflexivity. Qed.

(** A property that [int] rejects makes the [ValueError] leave the
    [try] statement. *)
Lemma int_or_default_rejected key default text :
  get_prop key = Some text ->
  PyInt.of_string text = Py.Raise Py.ValueError ->
  int_or_default get_prop key default = Py.Raise Py.ValueError.
Proof. unfold int_or_default. intros -> H. simpl. rewrite H. reflexivity. Qed.

(** When the three properties are absent the defaults are taken. *)
Lemma loadDaemonSettings_absent :
  get_prop "daemon_check_interval" = None ->
  get_prop "daemon_max_containers" = None ->
  get_prop "api_server_port" = None ->
  loadDaemonSettings DAEMON_DEFAULT_INTERVAL DAEMON_DEFAULT_MAX_CONTAINERS
                     API_SERVER_DEFAULT_PORT get_prop =
  Py.Ok {| _interval := DAEMON_DEFAULT_INTERVAL;
           _max_containers := DAEMON_DEFAULT_MAX_CONTAINERS;
           _api_server := get_prop "api_server";
           _api_server_port := API_SERVER_DEFAULT_PORT |}.
Proof.
  intros H1 H2 H3. unfold loadDaemonSettings.
  rewrite !int_or_default_absent by assumption. reflexivity.
Qed.

(** A check interval that [int] rejects aborts the loading. *)
Lemma loadDaemonSettings_rejected text :
  get_prop "daemon_check_interval" = Some text ->
  PyInt.of_string text = Py.Raise Py.ValueError ->
  loadDaemonSettings DAEMON_DEFAULT_INTERVAL DAEMON_DEFAULT_MAX_CONTAINERS
                     API_SERVER_DEFAULT_PORT get_prop =
  Py.Raise Py.ValueError.
Proof.
  intros H1 H2. unfold loadDaemonSettings.
  rewrite (int_or_default_rejected _ _ _ H1 H2). reflexivity.
Qed.

End SettingsFacts.

(** C5.  [loadDaemonSettings] catches [TypeError] only.  An absent
    setting makes [int(None)] raise [TypeError] and the default is taken;
    a setting that is not a number makes [int] raise [ValueError], which
    leaves [loadDaemonSettings]: with the check interval set to the text
    [often] the loading aborts, whatever the defaults are. *)
Theorem loadDaemonSettings_non_numeric (d_interval d_max d_port : Z) :
  Sample.bad_interval "daemon_check_interval" = Some "often" /\
  PyInt.int (Some "often") = Py.Raise Py.ValueError /\
  loadDaemonSettings d_interval d_max d_port Sample.bad_interval =
    Py.Raise Py.ValueError /\
  loadDaemonSettings d_interval d_max d_port Sample.no_settings =
    Py.Ok {| _interval := d_interval; _max_containers := d_max;
             _api_server := None; _api_server_port := d_port |}.
Proof. repeat split. Qed.

(** ** The request gate of the status API *)

(** The values that compare equal to [1]. *)
Lemma eq_one_iff (v : Json.value) :
  Json.eq_one v = true <->
  v = Json.Int 1 \/ v = Json.Bool true \/ v = Json.Float Json.one_bits.
Proof.
  split.
  - destruct v as [ |b|z|bits| | | ]; simpl; try discriminate.
    + intros ->. auto.
    + intros H%Z.eqb_eq. subst. auto.
    + intros H%Z.eqb_eq. subst. auto.
  - intros [->|[->| ->]]; reflexivity.
Qed.

(** A payload that is valid JSON but neither an object, a string nor a
    list makes the membership test raise [TypeError], which the coroutine
    does not catch. *)
Lemma status_request_number (at_counters at_jobs : DaemonInfo) (z : Z) :
  _api_server_runtime at_counters at_jobs (Some (Json.Int z)) =
  Escapes Py.TypeError.
Proof. reflexivity. Qed.

(** The identifier [true] is not the number [1], and yet the server
    replies to it. *)
Lemma reply_to_boolean_id :
  Json.Bool true <> Json.Int 1 /\
  _api_server_runtime initial_info initial_info
    (Some (Json.Obj [("id", Json.Bool true)])) =
  Reply {| r_id := Json.Bool true; r_running_builds := 0;
           r_scheduled_builds := 0; r_jobs := [] |}.
Proof. split; [discriminate|reflexivity]. Qed.

(** C6, amended.  A message that fails to parse, or that parses to an
    object without the member [id], or to an object whose [id] does not
    compare equal to [1], makes the server close the connection without a
    response; a reply is sent only for an object whose [id] compares equal
    to [1], and the values that compare equal to [1] are the integer [1],
    the float [1.0] and [true]. *)
Theorem status_request_gate (at_counters at_jobs : DaemonInfo)
  (parsed : option Json.value) :
  (parsed = None ->
   _api_server_runtime at_counters at_jobs parsed = Close) /\
  (forall members,
      parsed = Some (Json.Obj members) ->
      Json.dict_get "id" members = None ->
      _api_server_runtime at_counters at_jobs parsed = Close) /\
  (forall members id,
      parsed = Some (Json.Obj members) ->
      Json.dict_get "id" members = Some id ->
      Json.eq_one id = false ->
      _api_server_runtime at_counters at_jobs parsed = Close) /\
  (forall r,
      _api_server_runtime at_counters at_jobs parsed = Reply r ->
      exists members,
        parsed = Some (Json.Obj members) /\
        Json.dict_get "id" members = Some (r_id r) /\
        (r_id r = Json.Int 1 \/ r_id r = Json.Bool true \/
         r_id r = Json.Float Json.one_bits)).
Proof.
  split; [|split; [|split]].
  - intros ->. reflexivity.
  - intros members -> Hid.
    unfold _api_server_runtime, Json.contains. rewrite Hid.
    rewrite bool_decide_eq_false_2; [reflexivity|].
    intros [x Hx]. discriminate.
  - intros members id -> Hid Hone.
    unfold _api_server_runtime, Json.contains, Json.subscript.
    rewrite Hid, Hone.
    rewrite bool_decide_eq_true_2 by (eexists; reflexivity). reflexivity.
  - intros r Hreply. destruct parsed as [data|]; [|discriminate].
    destruct data as [ |b|z|bits|s|items|members];
      unfold _api_server_runtime, Json.contains, Json.subscript in Hreply;
      try discriminate.
    + destruct (Py.str_contains "id" s); discriminate.
    + destruct (existsb (Json.eq_str "id") items); discriminate.
    + exists members. split; [reflexivity|].
      destruct (Json.dict_get "id" members) as [id|] eqn:Hid.
      2:{ rewrite bool_decide_eq_false_2 in Hreply; [discriminate|].
          intros [x Hx]. discriminate. }
      rewrite bool_decide_eq_true_2 in Hreply by (eexists; reflexivity).
      destruct (Json.eq_one id) eqn:Hone; [|discriminate].
      destruct (getJobList (jobs at_jobs)) as [views|e];
        [|destruct e; discriminate].
      injection Hreply as <-. simpl.
      split; [reflexivity|]. apply eq_one_iff. exact Hone.
Qed.

(** The request [{"id": 42}] is closed without a response. *)
Lemma status_request_gate_witness :
  Json.dict_get "id" [("id", Json.Int 42)] = Some (Json.Int 42) /\
  Json.eq_one (Json.Int 42) = false /\
  _api_server_runtime Sample.detected Sample.detected
    (Some (Json.Obj [("id", Json.Int 42)])) = Close.
Proof.
  split; [reflexivity|]. split; [reflexivity|].
  apply (proj1 (proj2 (proj2
           (status_request_gate Sample.detected Sample.detected
              (Some (Json.Obj [("id", Json.Int 42)])))))
           [("id", Json.Int 42)] (Json.Int 42));
    reflexivity.
Defined.

(** ** Change detection *)

Section DetectorFacts.

Variable upstream : string -> string -> string.

Lemma check_project_unchanged (p : Project) (info : DaemonInfo) :
  up_to_date upstream p -> check_project upstream p info = (p, info, []).
Proof.
  unfold up_to_date, check_project. intros ->.
  rewrite String.eqb_refl. reflexivity.
Qed.

(** Whatever it finds, the loop body leaves the project up to date. *)
Lemma check_project_up_to_date (p : Project) (info : DaemonInfo) :
  up_to_date upstream (fst (fst (check_project upstream p info))).
Proof.
  unfold check_project, up_to_date.
  destruct (String.eqb_spec (vcs_lastrev p)
              (upstream (repo p) (vcs_branch p))) as [Heq|Hne]; simpl.
  - exact Heq.
  - reflexivity.
Qed.

Lemma prepare_build_task_unchanged (ps : list Project) :
  forall info, Forall (up_to_date upstream) ps ->
  _prepare_build_task upstream ps info = (ps, info, []).
Proof.
  induction ps as [|p ps IH]; intros info Hall; [reflexivity|].
  inversion Hall as [|? ? Hp Hps]; subst. simpl.
  rewrite (check_project_unchanged p info Hp), (IH info Hps). reflexivity.
Qed.

Lemma prepare_build_task_up_to_date (ps : list Project) :
  forall info,
  Forall (up_to_date upstream)
         (fst (fst (_prepare_build_task upstream ps info))).
Proof.
  induction ps as [|p ps IH]; intros info; simpl; [constructor|].
  pose proof (check_project_up_to_date p info) as Hp.
  destruct (check_project upstream p info) as [[p' info1] u1].
  specialize (IH info1).
  destruct (_prepare_build_task upstream ps info1) as [[ps' info2] u2].
  simpl in *. constructor; assumption.
Qed.

(** What a project whose revision changed adds to the store: one queued
    job per build-control file, tagged with the new commit. *)
Lemma check_project_changed (p : Project) (info : DaemonInfo) :
  ~ up_to_date upstream p ->
  let c := upstream (repo p) (vcs_branch p) in
  let p' := set_lastrev p c in
  check_project upstream p info =
  (p',
   {| jobs := jobs info ++ map (fun dc => new_job p' dc c) (dc_files p);
      scheduled_builds :=
        scheduled_builds info + Z.of_nat (length (dc_files p));
      running_builds := running_builds info |},
   [(project p, c)]).
Proof.
  unfold up_to_date, check_project. intros Hne. simpl.
  destruct (String.eqb_spec (vcs_lastrev p)
              (upstream (repo p) (vcs_branch p))) as [Heq|_];
    [contradiction|]. simpl.
  f_equal. f_equal.
  generalize (set_lastrev p (upstream (repo p) (vcs_branch p))).
  generalize (upstream (repo p) (vcs_branch p)). intros c q.
  revert info. induction (dc_files p) as [|dc dcs IH]; intros info.
  - simpl. rewrite app_nil_r, Z.add_0_r. destruct info; reflexivity.
  - simpl fold_left. rewrite IH. unfold enqueue. simpl.
    rewrite <- app_assoc. simpl. f_equal. lia.
Qed.

End DetectorFacts.

(** C7.  Change detection adds nothing for an unchanged revision.  For a
    project whose stored revision equals the commit hash read from its
    repository, the detection pass leaves the store and the project as
    they are and records no update.  Hence a second pass that reads the
    same hashes as the first enqueues no job, whatever happened to the
    store in between. *)
Theorem detection_idempotent (upstream : string -> string -> string) :
  (forall (p : Project) (info : DaemonInfo),
      vcs_lastrev p = upstream (repo p) (vcs_branch p) ->
      check_project upstream p info = (p, info, [])) /\
  (forall (ps : list Project) (info info' : DaemonInfo),
      let ps1 := fst (fst (_prepare_build_task upstream ps info)) in
      _prepare_build_task upstream ps1 info' = (ps1, info', [])).
Proof.
  split.
  - intros p info Hp. exact (check_project_unchanged upstream p info Hp).
  - intros ps info info' ps1. subst ps1.
    apply prepare_build_task_unchanged.
    apply prepare_build_task_up_to_date.
Qed.

(** The project [book] once its commit has been seen. *)
Lemma detection_idempotent_witness :
  vcs_lastrev Sample.book_seen =
    Sample.upstream (repo Sample.book_seen) (vcs_branch Sample.book_seen) /\
  check_project Sample.upstream Sample.book_seen Sample.detected =
    (Sample.book_seen, Sample.detected, []).
Proof.
  split; [reflexivity|].
  apply (proj1 (detection_idempotent Sample.upstream)
           Sample.book_seen Sample.detected).
  reflexivity.
Defined.

(** ** Completion *)

(** C10.  The last critical section of a worker decrements the running
    counter by one, leaves the queued counter as it is, and removes at
    most one job: the first job of the sequence whose build-control file
    is the worker's and whose status is Running.  Every other job stays
    as it was, in its place relative to the others.  When no job matches,
    the sequence is unchanged and the counter is decremented all the
    same. *)
Theorem process_finish_frame (dc : string) (info : DaemonInfo) :
  running_builds (process_finish dc info) = running_builds info - 1 /\
  scheduled_builds (process_finish dc info) = scheduled_builds info /\
  ((exists (before : list Job) (j : Job) (after : list Job),
       jobs info = before ++ j :: after /\
       dc_file j = dc /\ status j = Running /\
       Forall (fun x => ~ (dc_file x = dc /\ status x = Running)) before /\
       jobs (process_finish dc info) = before ++ after) \/
   (Forall (fun x => ~ (dc_file x = dc /\ status x = Running)) (jobs info) /\
    jobs (process_finish dc info) = jobs info)).
Proof.
  split; [reflexivity|]. split; [reflexivity|].
  unfold process_finish. simpl.
  destruct (list_find (job_matches dc) (jobs info)) as [[idx j]|] eqn:Hfind.
  - left. apply list_find_Some in Hfind as (Hj & [Hdc Hst] & Hfirst).
    exists (take idx (jobs info)), j, (drop (S idx) (jobs info)).
    split; [symmetry; apply take_drop_middle; exact Hj|].
    split; [exact Hdc|]. split; [exact Hst|].
    split; [|apply delete_take_drop].
    apply Forall_forall. intros x Hx.
    apply list_elem_of_lookup in Hx as [i Hi].
    pose proof (lookup_lt_Some _ _ _ Hi) as Hlt.
    rewrite length_take in Hlt.
    rewrite lookup_take_lt in Hi by lia.
    apply (Hfirst i x Hi). lia.
  - right. split; [|reflexivity].
    apply list_find_None in Hfind. exact Hfind.
Qed.

(** ** The build pipeline *)

Lemma bind_ok {A B : Type} (es : list event) (a : A) (k : A -> M B) :
  bind (es, Py.Ok a) k = (es ++ fst (k a), snd (k a)).
Proof. unfold bind. destruct (k a). reflexivity. Qed.

Lemma bind_raise {A B : Type} (es : list event) (e : Py.exn) (k : A -> M B) :
  bind (es, Py.Raise e) k = (es, Py.Raise e).
Proof. reflexivity. Qed.

Lemma getitem_some (d : gmap string rval) (key : string) (v : rval) :
  d !! key = Some v -> getitem d key = ([], Py.Ok v).
Proof. unfold getitem. intros ->. reflexivity. Qed.

Lemma delitem_some (d : gmap string rval) (key : string) :
  is_Some (d !! key) -> delitem d key = ([], Py.Ok (delete key d)).
Proof. unfold delitem. intros [v ->]. reflexivity. Qed.

(** A loop whose body returns for every element returns, and its events
    are those of the bodies in order. *)
Lemma for_each_returns {A : Type} (body : A -> M unit) (xs : list A) :
  Forall (fun x => snd (body x) = Py.Ok tt) xs ->
  for_each xs body = (concat (map (fun x => fst (body x)) xs), Py.Ok tt).
Proof.
  induction 1 as [|x xs Hx _ IH]; [reflexivity|].
  simpl. destruct (body x) as [es r] eqn:Hb. simpl in Hx. subst r.
  rewrite bind_ok, IH. reflexivity.
Qed.

(** A loop stops at the first element whose body raises. *)
Lemma for_each_raises {A : Type} (body : A -> M unit) (x : A) (xs : list A)
  (e : Py.exn) :
  snd (body x) = Py.Raise e ->
  for_each (x :: xs) body = (fst (body x), Py.Raise e).
Proof.
  intros Hx. simpl. destruct (body x) as [es r]. simpl in *. subst r.
  reflexivity.
Qed.

Section ProcessFacts.

Variables BUILDS_DIR LOG_DIR hostname : string.
Variables debug ircbot : bool.
Variable irc_config : IrcConfig.
Variable now : string -> Z.

Lemma notify_spec (p : Project) (message : string) :
  notify irc_config p message =
  (notification_events irc_config p message, Py.Ok tt).
Proof.
  unfold notify, notification_events.
  rewrite (for_each_returns _ (notifications p))
    by (apply Forall_forall; intros; reflexivity).
  rewrite bind_ok.
  replace (concat (map (fun x => fst (emit (EvClientMessage x message)))
                       (notifications p)))
    with (map (fun client => EvClientMessage client message)
              (notifications p)).
  - destruct (irc_channel_messages irc_config); reflexivity.
  - induction (notifications p) as [|x xs IH]; [reflexivity|].
    simpl. rewrite IH. reflexivity.
Qed.

Section OneFormat.

Variables (c : Container) (p : Project) (dc f : string).
Variables (build_status : rval) (log : string) (archive : rval).
Hypothesis Hreports : reports debug c dc f build_status log archive.

Lemma final_result_lookup (key : string) :
  key <> "container_id" -> key <> "dapscmd" ->
  final_result debug c dc f !! key = merged_result c dc f !! key.
Proof.
  intros H1 H2. unfold final_result. destruct debug.
  - rewrite lookup_insert_ne by congruence. reflexivity.
  - rewrite lookup_delete_ne by congruence. reflexivity.
Qed.

(** What the loop body does for a format whose result is as the
    contract says. *)
Lemma build_format_reports :
  build_format BUILDS_DIR LOG_DIR hostname debug ircbot irc_config now
               c p dc f =
  (if truthy build_status
   then success_events BUILDS_DIR hostname debug ircbot irc_config now
                       c p dc f archive
   else failure_events LOG_DIR hostname ircbot irc_config now p dc f log,
   Py.Ok tt).
Proof.
  destruct Hreports as [Harch Hcmd Hst Hdc Hfmt Hlog].
  assert (Hfinal :
    (if debug
     then ret (<["container_id" := RStr (getContainerID c)]>
                 (merged_result c dc f))
     else delitem (merged_result c dc f) "dapscmd") =
    ([], Py.Ok (final_result debug c dc f))).
  { unfold final_result. destruct debug; [reflexivity|].
    apply delitem_some. apply Hcmd. reflexivity. }
  assert (Hst' : final_result debug c dc f !! "build_status"
                 = Some build_status)
    by (rewrite final_result_lookup by discriminate; exact Hst).
  assert (Hdc' : final_result debug c dc f !! "dc_file" = Some (RStr dc))
    by (rewrite final_result_lookup by discriminate; exact Hdc).
  assert (Hfmt' : final_result debug c dc f !! "format" = Some (RStr f))
    by (rewrite final_result_lookup by discriminate; exact Hfmt).
  assert (Hlog' : final_result debug c dc f !! "build_log"
                  = Some (RStr log))
    by (rewrite final_result_lookup by discriminate; exact Hlog).
  unfold build_format, emit.
  rewrite bind_ok; cbv beta.
  rewrite (getitem_some _ _ _ Harch), bind_ok; cbv beta.
  rewrite delitem_some by (eexists; exact Harch).
  rewrite bind_ok; cbv beta. rewrite bind_ok; cbv beta.
  fold (merged_result c dc f).
  rewrite Hfinal, bind_ok; cbv beta.
  rewrite (getitem_some _ _ _ Hst'), bind_ok; cbv beta.
  destruct (truthy build_status).
  - unfold success_events.
    repeat (rewrite bind_ok; cbv beta).
    destruct (ircbot && irc_inform_build_success irc_config).
    + rewrite (getitem_some _ _ _ Hdc'), bind_ok; cbv beta.
      rewrite (getitem_some _ _ _ Hfmt'), bind_ok; cbv beta.
      rewrite notify_spec. reflexivity.
    + reflexivity.
  - unfold failure_events, failure_log_path.
    rewrite (getitem_some _ _ _ Hdc'), bind_ok; cbv beta.
    rewrite (getitem_some _ _ _ Hfmt'), bind_ok; cbv beta.
    rewrite bind_ok; cbv beta.
    rewrite (getitem_some _ _ _ Hlog'), bind_ok; cbv beta.
    rewrite bind_ok; cbv beta.
    destruct (ircbot && irc_inform_build_fail irc_config).
    + repeat (rewrite bind_ok; cbv beta).
      rewrite notify_spec. reflexivity.
    + reflexivity.
Qed.

End OneFormat.

End ProcessFacts.

Lemma fail_message_not_success (hostname : string) (dc f dc' f' : rval)
  (path file_name : string) :
  fail_message hostname dc f path <> success_message hostname dc' f' file_name.
Proof. unfold fail_message, success_message. simpl. discriminate. Qed.

Lemma notification_events_messages (irc_config : IrcConfig) (p : Project)
  (message : string) (e : event) :
  In e (notification_events irc_config p message) ->
  (exists client, e = EvClientMessage client message) \/
  e = EvChannelMessage message.
Proof.
  unfold notification_events. rewrite in_app_iff, in_map_iff.
  intros [[client [<- _]]|Hch].
  - left. exists client. reflexivity.
  - right. destruct (irc_channel_messages irc_config);
      [destruct Hch as [<-|[]]; reflexivity|destruct Hch].
Qed.

Lemma replace_char_get (old new : ascii) (s : string) : forall i : nat,
  String.get i (Py.replace_char old new s) =
  option_map (fun ch => if Ascii.eqb ch old then new else ch) (String.get i s).
Proof.
  induction s as [|ch s IH]; intros i; simpl; [reflexivity|].
  destruct i as [|i]; [reflexivity|]. apply IH.
Qed.

(** C8.  A format whose build reports [build_status = false] is recovered
    locally.  The worker writes the build log to
    [{LOG_DIR}/build_fail_{dc_file}_{format}_{time}.log]; it fetches no
    archive and sends no message of a finished build for that format (the
    only messages are those of the failure); and the loop body returns, so
    that the remaining formats of [html, single_html, pdf] are built: when
    their bodies return as well, the worker reaches its last critical
    section, which removes the job from the sequence. *)
Theorem failed_format_recovered
  (BUILDS_DIR LOG_DIR hostname : string) (debug ircbot : bool)
  (irc_config : IrcConfig) (now : string -> Z)
  (c : Container) (p : Project) (dc f log : string) (archive : rval) :
  let body := build_format BUILDS_DIR LOG_DIR hostname debug ircbot
                           irc_config now c p dc in
  let path := LOG_DIR +:+ "/build_fail_" +:+ dc +:+ "_" +:+ f +:+ "_" +:+
              Py.str_of_int (now f) +:+ ".log" in
  f ∈ build_formats ->
  reports debug c dc f (RBool false) log archive ->
  body f = (failure_events LOG_DIR hostname ircbot irc_config now p dc f log,
            Py.Ok tt) /\
  In (EvWrite path log) (fst (body f)) /\
  (forall e, In e (fst (body f)) ->
     match e with
     | EvFetch _ _ | EvFileCreate _ _ => False
     | EvClientMessage _ m | EvChannelMessage m =>
         forall dc' f' file_name,
           m <> success_message hostname dc' f' file_name
     | _ => True
     end) /\
  ((forall g, g ∈ build_formats -> g <> f -> snd (body g) = Py.Ok tt) ->
   _process BUILDS_DIR LOG_DIR hostname debug ircbot irc_config now c p dc =
   ([EvSpawn; EvRecordContainer dc (getContainerID c);
     EvPrepare (vcs_repodir p)] ++
    fst (body "html") ++ fst (body "single_html") ++ fst (body "pdf") ++
    [EvFinish dc] ++ (if debug then [] else [EvKill]),
    Py.Ok tt)) /\
  (forall info j,
     j ∈ jobs info -> dc_file j = dc -> status j = Running ->
     length (jobs (store_effect (EvFinish dc) info)) =
       pred (length (jobs info)) /\
     running_builds (store_effect (EvFinish dc) info) =
       running_builds info - 1).
Proof.
  intros body path Hf Hreports.
  assert (Hbody : body f =
            (failure_events LOG_DIR hostname ircbot irc_config now p dc f log,
             Py.Ok tt)).
  { subst body. cbv beta.
    rewrite (build_format_reports BUILDS_DIR LOG_DIR hostname debug ircbot
               irc_config now c p dc f (RBool false) log archive Hreports).
    reflexivity. }
  split; [exact Hbody|]. rewrite Hbody. cbn [fst].
  split; [|split; [|split]].
  - unfold failure_events, failure_log_path. subst path.
    apply in_app_iff. left. simpl. auto.
  - intros e. unfold failure_events. rewrite in_app_iff.
    intros [Hfixed|Hnote].
    + simpl in Hfixed.
      destruct Hfixed as [<-|[<-|[<-|[<-|[]]]]]; exact I.
    + destruct (ircbot && irc_inform_build_fail irc_config); [|destruct Hnote].
      apply notification_events_messages in Hnote as [[client ->]| ->];
        intros dc' f' file_name; apply fail_message_not_success.
  - intros Hothers. unfold _process, emit.
    assert (Hall : Forall (fun g => snd (body g) = Py.Ok tt) build_formats).
    { apply Forall_forall. intros g Hg.
      destruct (String.eqb_spec g f) as [->|Hne].
      - rewrite Hbody. reflexivity.
      - apply Hothers; assumption. }
    repeat (rewrite bind_ok; cbv beta).
    fold body. rewrite (for_each_returns body build_formats Hall).
    repeat (rewrite bind_ok; cbv beta).
    destruct debug; simpl; rewrite ?app_nil_r, <- ?app_assoc; reflexivity.
  - intros info j Hj Hdc Hst. simpl. split; [|reflexivity].
    destruct (list_find (job_matches dc) (jobs info)) as [[idx x]|] eqn:Hfind.
    + apply list_find_Some in Hfind as (Hx & _ & _).
      rewrite length_delete by (eexists; exact Hx). lia.
    + exfalso. apply list_find_None in Hfind.
      rewrite Forall_forall in Hfind. apply (Hfind j Hj). split; assumption.
Qed.

(** The sample build environment answers as the contract says. *)
Lemma sample_reports (f : string) :
  reports false Sample.container "DC-mybook" f
          (RBool (negb (String.eqb f "html"))) ("log of " +:+ f)
          (RStr ("/tmp/" +:+ f +:+ ".tar")).
Proof.
  constructor; try reflexivity.
  intros _. eexists. reflexivity.
Qed.

(** The failed [html] build of the sample build environment. *)
Lemma failed_format_recovered_witness :
  "html" ∈ build_formats /\
  reports false Sample.container "DC-mybook" "html" (RBool false)
          "log of html" (RStr "/tmp/html.tar") /\
  In (EvWrite "/logs/build_fail_DC-mybook_html_1000000.log" "log of html")
     (fst (build_format "/builds" "/logs" "host" false true Sample.irc
             Sample.now Sample.container Sample.book "DC-mybook" "html")).
Proof.
  assert (Hin : "html" ∈ build_formats) by (apply list_elem_of_here).
  split; [exact Hin|]. split; [exact (sample_reports "html")|].
  exact (proj1 (proj2
           (failed_format_recovered "/builds" "/logs" "host" false true
              Sample.irc Sample.now Sample.container Sample.book
              "DC-mybook" "html" "log of html" (RStr "/tmp/html.tar")
              Hin (sample_reports "html")))).
Defined.

(** C9.  The archive of a successful build is fetched to the builds
    directory under the name made of the unix time, the build-control file
    without its first three characters (the prefix [DC-]) and the format
    with every underscore replaced by a hyphen, joined by underscores and
    followed by [.tar.gz].  With the time 1000000, the file [DC-mybook]
    and the format [single_html] the name is
    [1000000_mybook_single-html.tar.gz]. *)
Theorem archive_name_deterministic
  (BUILDS_DIR LOG_DIR hostname : string) (debug ircbot : bool)
  (irc_config : IrcConfig) (now : string -> Z) :
  (forall (t : Z) (name f : string),
      archive_file_name t ("DC-" +:+ name) f =
      Py.str_of_int t +:+ "_" +:+ name +:+ "_" +:+
      Py.replace_char "_" "-" f +:+ ".tar.gz") /\
  (forall (f : string) (i : nat),
      String.get i (Py.replace_char "_" "-" f) =
      option_map (fun ch => if Ascii.eqb ch "_" then "-"%char else ch)
                 (String.get i f)) /\
  archive_file_name 1000000 "DC-mybook" "single_html" =
    "1000000_mybook_single-html.tar.gz" /\
  (forall (c : Container) (p : Project) (dc f : string)
          (build_status : rval) (log : string) (archive : rval),
      reports debug c dc f build_status log archive ->
      truthy build_status = true ->
      In (EvFetch (rval_str archive +:+ ".gz")
                  (BUILDS_DIR +:+ "/" +:+ archive_file_name (now f) dc f))
         (fst (build_format BUILDS_DIR LOG_DIR hostname debug ircbot
                            irc_config now c p dc f))).
Proof.
  split; [|split; [|split]].
  - intros t name f. reflexivity.
  - intros f i. apply replace_char_get.
  - reflexivity.
  - intros c p dc f build_status log archive Hreports Htrue.
    rewrite (build_format_reports BUILDS_DIR LOG_DIR hostname debug ircbot
               irc_config now c p dc f build_status log archive Hreports).
    rewrite Htrue. cbn [fst]. unfold success_events.
    apply in_app_iff. left. simpl. auto 10.
Qed.

(** The successful [single_html] build of the sample build environment. *)
Lemma archive_name_deterministic_witness :
  reports false Sample.container "DC-mybook" "single_html" (RBool true)
          "log of single_html" (RStr "/tmp/single_html.tar") /\
  truthy (RBool true) = true /\
  In (EvFetch "/tmp/single_html.tar.gz"
              "/builds/1000000_mybook_single-html.tar.gz")
     (fst (build_format "/builds" "/logs" "host" false true Sample.irc
             Sample.now Sample.container Sample.book "DC-mybook"
             "single_html")).
Proof.
  split; [exact (sample_reports "single_html")|]. split; [reflexivity|].
  exact (proj2 (proj2 (proj2
           (archive_name_deterministic "/builds" "/logs" "host" false true
              Sample.irc Sample.now)))
           Sample.container Sample.book "DC-mybook" "single_html"
           (RBool true) "log of single_html" (RStr "/tmp/single_html.tar")
           (sample_reports "single_html") eq_refl).
Defined.

(** ** A scheduler pass as a run of the transition system *)

Section Pass.

Variable max_containers : Z.
Variable clock : nat -> Z.

(** From the head of the loop, the actions of the scheduler alone lead to
    the result of [scan]. *)
Lemma scan_as_run (snapshot : list Job) : forall idx running w live' started,
  sched w = Scanning running snapshot idx ->
  leaked w = false ->
  scan max_containers clock snapshot idx running (store w) =
    Py.Ok (live', started) ->
  exists ls,
    Forall is_sched_label ls /\
    run max_containers ls w =
      Some {| store := live'; leaked := false; sched := Sleeping;
              threads := threads w ++ map thread_of started |}.
Proof.
  induction snapshot as [|job rest IH];
    intros idx running w live' started Hsched Hleak Hscan.
  - simpl in Hscan. injection Hscan as <- <-.
    exists [LSchedScan]. split; [repeat constructor|].
    simpl. rewrite Hsched. simpl. rewrite app_nil_r.
    destruct w; simpl in *; subst. reflexivity.
  - simpl in Hscan.
    destruct (scan_body max_containers running job) as [|args] eqn:Hbody.
    + injection Hscan as <- <-.
      exists [LSchedScan]. split; [repeat constructor|].
      simpl. rewrite Hsched, Hbody. simpl. rewrite app_nil_r.
      destruct w; simpl in *; subst. reflexivity.
    + destruct (promote_at idx (clock idx) (store w)) as [live1|e] eqn:Hprom;
        [|discriminate].
      destruct (scan max_containers clock rest (S idx) (running + 1) live1)
        as [[live2 ws]|e] eqn:Hrest; [|discriminate].
      injection Hscan as <- <-.
      set (w1 := {| store := live1; leaked := false;
                    sched := Scanning (running + 1) rest (S idx);
                    threads := threads w ++ [thread_of args] |}).
      destruct (IH (S idx) (running + 1) w1 live2 ws eq_refl eq_refl Hrest)
        as [ls [Hls Hrun]].
      exists (LSchedScan :: LSchedPromote (clock idx) :: ls).
      split; [repeat constructor; exact Hls|].
      simpl. rewrite Hsched, Hbody. simpl. rewrite Hleak, Hprom.
      etransitivity; [exact Hrun|]. subst w1. simpl.
      rewrite <- app_assoc. reflexivity.
Qed.

(** A pass of [_jobManager] that no other thread interrupts is a run of
    scheduler actions, and it ends in the store that [jobManager_tick]
    computes, with one new thread for each worker started. *)
Lemma tick_as_run (w : World) (info' : DaemonInfo) (started : list Worker) :
  sched w = Sleeping ->
  leaked w = false ->
  jobManager_tick max_containers clock (store w) = Py.Ok (info', started) ->
  exists ls,
    Forall is_sched_label ls /\
    run max_containers ls w =
      Some {| store := info'; leaked := false; sched := Sleeping;
              threads := threads w ++ map thread_of started |}.
Proof.
  intros Hsched Hleak Htick. unfold jobManager_tick in Htick.
  destruct (running_builds (store w) <? max_containers) eqn:Hfree.
  - set (w0 := with_sched w (Scanning (running_builds (store w))
                                      (jobs (store w)) 0)).
    destruct (scan_as_run (jobs (store w)) 0%nat (running_builds (store w))
                w0 info' started eq_refl Hleak Htick) as [ls [Hls Hrun]].
    exists (LSchedRead :: ls). split; [constructor; [exact I|exact Hls]|].
    simpl. rewrite Hsched, Hleak, Hfree. exact Hrun.
  - injection Htick as <- <-.
    exists [LSchedRead]. split; [repeat constructor|].
    simpl. rewrite Hsched, Hleak, Hfree. rewrite app_nil_r.
    destruct w; simpl in *; subst. reflexivity.
Qed.

End Pass.

(** ** The counters when scheduler passes are not interrupted *)

Lemma running_files_app (l1 l2 : list Job) :
  running_files (l1 ++ l2) = running_files l1 ++ running_files l2.
Proof. unfold running_files. rewrite filter_app, map_app. reflexivity. Qed.

Lemma running_files_cons (j : Job) (l : list Job) :
  running_files (j :: l) =
  (if decide (status j = Running) then [dc_file j] else []) ++
  running_files l.
Proof.
  unfold running_files. rewrite filter_cons.
  destruct (decide (status j = Running)); reflexivity.
Qed.

Lemma count_status_all (s : Z) (l : list Job) :
  Forall (fun j => status j = s) l -> count_status s l = Z.of_nat (length l).
Proof.
  induction 1 as [|j l Hj _ IH]; [reflexivity|].
  rewrite count_status_cons, IH. destruct (decide (status j = s));
    [simpl length; lia|contradiction].
Qed.

Lemma count_status_none (s : Z) (l : list Job) :
  Forall (fun j => status j <> s) l -> count_status s l = 0.
Proof.
  induction 1 as [|j l Hj _ IH]; [reflexivity|].
  rewrite count_status_cons, IH. destruct (decide (status j = s));
    [contradiction|lia].
Qed.

Lemma running_files_none (l : list Job) :
  Forall (fun j => status j <> Running) l -> running_files l = [].
Proof.
  induction 1 as [|j l Hj _ IH]; [reflexivity|].
  rewrite running_files_cons, IH. destruct (decide (status j = Running));
    [contradiction|reflexivity].
Qed.

(** The promoted jobs: all running, with the files they had. *)
Lemma promoted_jobs (l : list Job) : forall g : nat -> Z,
  Forall (fun j => status j = Running)
         (imap (fun i j => set_running j (g i)) l) /\
  running_files (imap (fun i j => set_running j (g i)) l) = map dc_file l /\
  length (imap (fun i j => set_running j (g i)) l) = length l.
Proof.
  induction l as [|j l IH]; intros g; [repeat split; constructor|].
  rewrite imap_cons. destruct (IH (fun i => g (S i))) as (Hall & Hfiles & Hlen).
  split; [|split].
  - constructor; [reflexivity|exact Hall].
  - rewrite running_files_cons. simpl status.
    destruct (decide (1 = Running)) as [_|Hne]; [|exfalso; apply Hne; reflexivity].
    simpl. f_equal. exact Hfiles.
  - simpl. f_equal. exact Hlen.
Qed.

(** Replacing a job by one of the same status and file changes neither
    the counts nor the files of the running jobs. *)
Lemma insert_same_status (l : list Job) (idx : nat) (j j' : Job) :
  l !! idx = Some j -> status j' = status j -> dc_file j' = dc_file j ->
  (forall s, count_status s (<[idx := j']> l) = count_status s l) /\
  running_files (<[idx := j']> l) = running_files l.
Proof.
  intros Hj Hs Hdc.
  rewrite insert_take_drop by (eapply lookup_lt_Some; exact Hj).
  pose proof (take_drop_middle _ _ _ Hj) as Hsplit.
  generalize dependent (take idx l). generalize dependent (drop (S idx) l).
  intros l2 l1 Hsplit. clear Hj. subst l.
  split.
  - intros s. rewrite !count_status_app, !count_status_cons, Hs. reflexivity.
  - rewrite !running_files_app, !running_files_cons, Hs, Hdc. reflexivity.
Qed.

Section AtomicFacts.

Variable max_containers : Z.

Lemma atomic_inv_enqueue (a : Atomic) (p : Project) (dc c : string) :
  atomic_inv a ->
  atomic_inv {| a_store := enqueue (new_job p dc c) (a_store a);
                a_workers := a_workers a |}.
Proof.
  intros [Hc Hw]. split; simpl.
  - apply enqueue_counters. exact Hc.
  - rewrite running_files_app, running_files_cons. simpl status.
    destruct (decide (0 = Running)); [discriminate|].
    simpl. rewrite app_nil_r. exact Hw.
Qed.

Lemma atomic_inv_tick (a : Atomic) (clock : nat -> Z) :
  atomic_inv a ->
  exists a', atomic_exec max_containers (ATick clock) a = Some a' /\
             atomic_inv a'.
Proof.
  intros [[Hq Hr] Hw]. simpl.
  rewrite jobManager_tick_spec.
  set (k := promoted max_containers (a_store a)).
  eexists. split; [reflexivity|].
  assert (Hk : (k <= queued_prefix (jobs (a_store a)))%nat)
    by (subst k; unfold promoted; lia).
  pose proof (queued_prefix_length (jobs (a_store a))) as Hlen.
  pose proof (queued_prefix_take _ _ Hk) as Hqueued.
  assert (Hnot : Forall (fun j => status j <> Running)
                        (take k (jobs (a_store a)))).
  { eapply Forall_impl; [exact Hqueued|].
    intros j Hj. simpl in Hj. rewrite Hj. discriminate. }
  destruct (promoted_jobs (take k (jobs (a_store a))) clock)
    as (Hall & Hfiles & Hplen).
  assert (Hnotq : Forall (fun j => status j <> Queued)
            (imap (fun i j => set_running j (clock i))
                  (take k (jobs (a_store a))))).
  { eapply Forall_impl; [exact Hall|].
    intros j Hj. simpl in Hj. rewrite Hj. discriminate. }
  rewrite <- (take_drop k (jobs (a_store a))) in Hq, Hr, Hw.
  rewrite count_status_app in Hq, Hr. rewrite running_files_app in Hw.
  rewrite (count_status_all _ _ Hqueued) in Hq.
  rewrite (count_status_none _ _ Hnot) in Hr.
  rewrite (running_files_none _ Hnot) in Hw.
  rewrite length_take in Hq.
  split; [split|]; simpl.
  - rewrite count_status_app, (count_status_none _ _ Hnotq). lia.
  - rewrite count_status_app, (count_status_all _ _ Hall), Hplen, length_take.
    lia.
  - rewrite running_files_app, Hfiles, !map_app.
    rewrite Hw. simpl.
    replace (map w_dc_file (map worker_of (take k (jobs (a_store a)))))
      with (map dc_file (take k (jobs (a_store a))))
      by (rewrite map_map; reflexivity).
    apply Permutation_app_comm.
Qed.

Lemma atomic_inv_record (a : Atomic) (dc cid : string) :
  atomic_inv a ->
  atomic_inv {| a_store := record_container dc cid (a_store a);
                a_workers := a_workers a |}.
Proof.
  intros [[Hq Hr] Hw]. unfold atomic_inv, counters_agree, record_container.
  simpl.
  destruct (list_find (job_matches dc) (jobs (a_store a)))
    as [[idx j]|] eqn:Hfind; [|repeat split; assumption].
  apply list_find_Some in Hfind as (Hj & _ & _). simpl.
  destruct (insert_same_status (jobs (a_store a)) idx j
              (set_container_id j cid) Hj eq_refl eq_refl) as [Hcount Hfiles].
  rewrite !Hcount, Hfiles. repeat split; assumption.
Qed.

Lemma atomic_inv_finish (a : Atomic) (i : nat) (args : Worker) :
  atomic_inv a ->
  a_workers a !! i = Some args ->
  atomic_inv {| a_store := process_finish (w_dc_file args) (a_store a);
                a_workers := delete i (a_workers a) |}.
Proof.
  intros [Hc Hw] Hi.
  assert (Hin : w_dc_file args ∈ running_files (jobs (a_store a))).
  { rewrite <- Hw. apply list_elem_of_fmap. exists args.
    split; [reflexivity|]. eapply list_elem_of_lookup_2. exact Hi. }
  unfold running_files in Hin.
  apply list_elem_of_fmap in Hin as [j [Hdc Hj]].
  apply list_elem_of_filter in Hj as [Hst Hj].
  assert (Hmatch : exists x, x ∈ jobs (a_store a) /\
                             job_matches (w_dc_file args) x).
  { exists j. split; [exact Hj|]. split; [symmetry; exact Hdc|exact Hst]. }
  split; simpl.
  - apply process_finish_counters; assumption.
  - destruct (list_find (job_matches (w_dc_file args)) (jobs (a_store a)))
      as [[idx x]|] eqn:Hfind.
    + apply list_find_Some in Hfind as (Hx & [Hxdc Hxst] & _).
      rewrite !delete_take_drop.
      rewrite <- (take_drop_middle _ _ _ Hx) in Hw.
      rewrite <- (take_drop_middle _ _ _ Hi) in Hw.
      rewrite running_files_app, running_files_cons in Hw.
      destruct (decide (status x = Running)); [|contradiction].
      rewrite map_app in Hw. simpl in Hw. rewrite Hxdc in Hw.
      rewrite map_app, running_files_app.
      eapply Permutation_app_inv. exact Hw.
    + exfalso. destruct Hmatch as [x [Hx Hm]].
      apply list_find_None in Hfind. rewrite Forall_forall in Hfind.
      exact (Hfind x Hx Hm).
Qed.

Lemma atomic_inv_exec (l : atomic_label) (a a' : Atomic) :
  atomic_inv a -> atomic_exec max_containers l a = Some a' -> atomic_inv a'.
Proof.
  intros Hinv Hexec. destruct l as [p dc c|clock|i cid|i].
  - injection Hexec as <-. apply atomic_inv_enqueue. exact Hinv.
  - destruct (atomic_inv_tick a clock Hinv) as [a1 [H1 Hinv1]].
    rewrite H1 in Hexec. injection Hexec as <-. exact Hinv1.
  - simpl in Hexec. destruct (a_workers a !! i) as [args|]; [|discriminate].
    injection Hexec as <-. apply atomic_inv_record. exact Hinv.
  - simpl in Hexec. destruct (a_workers a !! i) as [args|] eqn:Hi;
      [|discriminate].
    injection Hexec as <-. apply atomic_inv_finish; assumption.
Qed.

(** When no scheduler pass is interrupted, both counters agree with the
    job sequence in every state, and every worker alive has a running job
    of its build-control file to remove. *)
Lemma atomic_counters_agree (ls : list atomic_label) : forall a a',
  atomic_inv a -> atomic_run max_containers ls a = Some a' -> atomic_inv a'.
Proof.
  induction ls as [|l ls IH]; intros a a' Hinv Hrun; simpl in Hrun.
  - injection Hrun as <-. exact Hinv.
  - destruct (atomic_exec max_containers l a) as [a1|] eqn:Hexec;
      [|discriminate].
    exact (IH _ _ (atomic_inv_exec _ _ _ Hinv Hexec) Hrun).
Qed.

Lemma atomic_inv_initial : atomic_inv initial_atomic.
Proof. split; [split; reflexivity|reflexivity]. Qed.

End AtomicFacts.

(** ** Worker threads and the ceiling *)

Section Threads.

Variable max_containers : Z.



End Threads.



(** ** A lock that is never released *)

Section Leak.

Variable max_containers : Z.

(** With the lock held for good, the one action left is the scheduler's
    loop head, which takes no lock; it leaves the scheduler asleep or
    waiting for the lock. *)
Lemma leaked_exec l w w' :
  leaked w = true -> exec max_containers l w = Some w' ->
  l = LSchedScan /\ store w' = store w /\ leaked w' = true /\
  (sched w' = Sleeping \/ exists r s i, sched w' = Starting r s i).
Proof.
  intros Hleak Hexec. destruct l; simpl in Hexec; rewrite ?Hleak in Hexec.
  - discriminate.
  - destruct (sched w); discriminate.
  - split; [reflexivity|].
    destruct (sched w) as [|running snapshot idx| |]; try discriminate.
    destruct snapshot as [|job rest].
    + injection Hexec as <-. simpl. auto.
    + destruct (scan_body max_containers running job);
        injection Hexec as <-; simpl; eauto 10.
  - destruct (sched w); discriminate.
  - destruct (threads w !! i) as [[args [|]]|]; discriminate.
  - destruct (threads w !! i) as [[args [|]]|]; discriminate.
  - discriminate.
Qed.

(** After that action no action is left. *)
Lemma leaked_stuck l w :
  leaked w = true ->
  (sched w = Sleeping \/ exists r s i, sched w = Starting r s i) ->
  exec max_containers l w = None.
Proof.
  intros Hleak Hsched.
  destruct (exec max_containers l w) as [w'|] eqn:Hexec; [|reflexivity].
  destruct (leaked_exec _ _ _ Hleak Hexec) as (-> & _).
  simpl in Hexec. destruct Hsched as [Hs|(r & s & i & Hs)];
    rewrite Hs in Hexec; discriminate.
Qed.

End Leak.

(** Once a thread has ended while holding [_daemon_info_lock], the daemon
    is over: whatever the threads do from then on, the store stays as it
    is, so no job is enqueued, promoted, given a container id or removed
    and no status request is served, and the lock stays held.  At most one
    action can still be taken, the scheduler's loop head, which can start
    one more worker thread. *)
Theorem leaked_lock_halts_daemon (max_containers : Z) (ls : list label)
  (w w' : World) :
  leaked w = true ->
  run max_containers ls w = Some w' ->
  store w' = store w /\ leaked w' = true /\
  (length ls <= 1)%nat /\ Forall (fun l => l = LSchedScan) ls /\
  (length (threads w') <= S (length (threads w)))%nat.
Proof.
  intros Hleak Hrun. destruct ls as [|l ls]; simpl in Hrun.
  - injection Hrun as <-. repeat split; auto.
  - destruct (exec max_containers l w) as [w1|] eqn:Hexec; [|discriminate].
    destruct (leaked_exec _ _ _ _ Hleak Hexec) as (-> & Hstore & Hleak1 & Hs1).
    destruct ls as [|l2 ls]; simpl in Hrun.
    + injection Hrun as <-. repeat split; auto.
      simpl in Hexec.
      destruct (sched w) as [|running snapshot idx| |]; try discriminate.
      destruct snapshot as [|job rest].
      * injection Hexec as <-. simpl. lia.
      * destruct (scan_body max_containers running job);
          injection Hexec as <-; simpl; rewrite ?length_app; simpl; lia.
    + rewrite (leaked_stuck max_containers l2 w1 Hleak1 Hs1) in Hrun.
      discriminate.
Qed.

(** The scheduler stands at the head of its loop when the lock is lost:
    it starts one more worker and waits for the lock. *)
Lemma leaked_lock_halts_daemon_witness :
  leaked Fixture.wedged_world = true /\
  run 2 [LSchedScan] Fixture.wedged_world = Some Fixture.wedged_next /\
  store Fixture.wedged_next = store Fixture.wedged_world /\
  leaked Fixture.wedged_next = true /\
  length (threads Fixture.wedged_next) = 1%nat.
Proof.
  split; [reflexivity|]. split; [reflexivity|].
  split; [|split; [|reflexivity]].
  - apply (leaked_lock_halts_daemon 2 [LSchedScan] Fixture.wedged_world
             Fixture.wedged_next); reflexivity.
  - apply (leaked_lock_halts_daemon 2 [LSchedScan] Fixture.wedged_world
             Fixture.wedged_next); reflexivity.
Defined.

(** ** Start times and the status reply *)

Section Shape.

Variable max_containers : Z.

Lemma job_shape_exec l w w' :
  Forall job_shape (jobs (store w)) ->
  exec max_containers l w = Some w' ->
  Forall job_shape (jobs (store w')).
Proof.
  intros Hall Hexec. destruct l; simpl in Hexec.
  - destruct (leaked w); [discriminate|]. injection Hexec as <-. simpl.
    apply Forall_app. split; [exact Hall|].
    constructor; [|constructor]. left. split; reflexivity.
  - destruct (sched w); try discriminate.
    destruct (leaked w); [discriminate|].
    destruct (_ <? _); injection Hexec as <-; exact Hall.
  - destruct (sched w) as [|running snapshot idx| |]; try discriminate.
    destruct snapshot as [|job rest].
    + injection Hexec as <-. exact Hall.
    + destruct (scan_body max_containers running job);
        injection Hexec as <-; exact Hall.
  - destruct (sched w) as [| |running rest idx|]; try discriminate.
    destruct (leaked w); [discriminate|].
    unfold promote_at in Hexec.
    destruct (jobs (store w) !! idx) as [j|] eqn:Hj;
      injection Hexec as <-; simpl; [|exact Hall].
    apply Forall_insert; [exact Hall|].
    right. split; [reflexivity|]. eexists. reflexivity.
  - destruct (threads w !! i) as [[args [|]]|]; try discriminate.
    destruct (leaked w); [discriminate|]. injection Hexec as <-. simpl.
    unfold record_container.
    destruct (list_find _ _) as [[idx j]|] eqn:Hfind; [|exact Hall].
    apply list_find_Some in Hfind as (Hj & _ & _). simpl.
    apply Forall_insert; [exact Hall|].
    exact (Forall_lookup_1 _ _ _ _ Hall Hj).
  - destruct (threads w !! i) as [[args [|]]|]; try discriminate.
    destruct (leaked w); [discriminate|]. injection Hexec as <-. simpl.
    destruct (list_find _ _) as [[idx j]|]; [|exact Hall].
    apply Forall_delete. exact Hall.
  - destruct (leaked w); [discriminate|].
    destruct (getJobList _); injection Hexec as <-; exact Hall.
Qed.

Lemma job_shape_run ls : forall w w',
  Forall job_shape (jobs (store w)) ->
  run max_containers ls w = Some w' ->
  Forall job_shape (jobs (store w')).
Proof.
  induction ls as [|l ls IH]; intros w w' Hall Hrun; simpl in Hrun.
  - injection Hrun as <-. exact Hall.
  - destruct (exec max_containers l w) as [w1|] eqn:Hexec; [|discriminate].
    exact (IH _ _ (job_shape_exec _ _ _ Hall Hexec) Hrun).
Qed.

End Shape.

(** In every state the daemon reaches, a job carries a start time exactly
    when its status is Running.  Hence the request [{"id": 1}] is answered
    with the list of all jobs when every job is running, and when some job
    is still queued [getJobList] raises [KeyError] and nothing is sent. *)
Theorem status_reply_needs_started_jobs (max_containers : Z) (w : World)
  (at_counters : DaemonInfo) (members : list (string * Json.value))
  (id : Json.value) :
  reachable max_containers w ->
  Json.dict_get "id" members = Some id -> Json.eq_one id = true ->
  Forall (fun j => is_Some (time_started j) <-> status j = Running)
         (jobs (store w)) /\
  (Forall (fun j => status j = Running) (jobs (store w)) ->
   _api_server_runtime at_counters (store w) (Some (Json.Obj members)) =
   Reply {| r_id := id;
            r_running_builds := running_builds at_counters;
            r_scheduled_builds := scheduled_builds at_counters;
            r_jobs := map (fun j => view_of j (default 0 (time_started j)))
                          (jobs (store w)) |}) /\
  (Exists (fun j => status j = Queued) (jobs (store w)) ->
   _api_server_runtime at_counters (store w) (Some (Json.Obj members)) =
   Escapes (Py.KeyError "time_started")).
Proof.
  intros [ls Hrun] Hid Hone.
  assert (Hshape : Forall job_shape (jobs (store w))).
  { apply (job_shape_run max_containers ls initial_world w);
      [constructor|exact Hrun]. }
  split; [|split].
  - eapply Forall_impl; [exact Hshape|]. intros j [[Hs Ht]|[Hs Ht]]; simpl.
    + rewrite Hs, Ht. split; [intros [t Hn]; discriminate|discriminate].
    + split; [intros _; exact Hs|intros _; exact Ht].
  - intros Hall. apply status_reply_started; try assumption.
    rewrite Forall_forall in *. intros j Hj.
    destruct (Hshape j Hj) as [[Hs _]|[_ Ht]]; [|exact Ht].
    rewrite (Hall j Hj) in Hs. discriminate.
  - intros Hex.
    unfold _api_server_runtime, Json.contains, Json.subscript.
    rewrite Hid, Hone.
    rewrite bool_decide_eq_true_2 by (eexists; reflexivity).
    rewrite getJobList_unstarted; [reflexivity|].
    apply Exists_exists in Hex as [j [Hj Hs]]. apply Exists_exists.
    exists j. split; [exact Hj|].
    rewrite Forall_forall in Hshape.
    destruct (Hshape j Hj) as [[_ Ht]|[Hr _]];
      [exact Ht|]. rewrite Hs in Hr. discriminate.
Qed.

(** The request [{"id": 1}] when both jobs of the sample revision are
    running. *)
Lemma status_reply_needs_started_jobs_witness :
  reachable 2 Fixture.all_running_world /\
  Json.dict_get "id" [("id", Json.Int 1)] = Some (Json.Int 1) /\
  Json.eq_one (Json.Int 1) = true /\
  Forall (fun j => status j = Running)
         (jobs (store Fixture.all_running_world)) /\
  _api_server_runtime initial_info (store Fixture.all_running_world)
    (Some (Json.Obj [("id", Json.Int 1)])) =
  Reply {| r_id := Json.Int 1;
           r_running_builds := 0;
           r_scheduled_builds := 0;
           r_jobs := map (fun j => view_of j (default 0 (time_started j)))
                         (jobs (store Fixture.all_running_world)) |}.
Proof.
  assert (Hreach : reachable 2 Fixture.all_running_world)
    by (exists Fixture.all_running; reflexivity).
  assert (Hall : Forall (fun j => status j = Running)
                        (jobs (store Fixture.all_running_world)))
    by (repeat constructor).
  split; [exact Hreach|]. split; [reflexivity|]. split; [reflexivity|].
  split; [exact Hall|].
  exact (proj1 (proj2 (status_reply_needs_started_jobs 2
           Fixture.all_running_world initial_info [("id", Json.Int 1)]
           (Json.Int 1) Hreach eq_refl eq_refl)) Hall).
Defined.

(** ** A ceiling that leaves no room *)

Section NoRoom.

Variable max_containers : Z.
Hypothesis no_room : max_containers <= 0.

Lemma idle_inv_exec l w w' :
  idle_inv w -> exec max_containers l w = Some w' -> idle_inv w'.
Proof.
  unfold idle_inv. intros (Hs & Ht & Hr & Hq & Hall) Hexec.
  destruct l; simpl in Hexec; rewrite ?Hs, ?Ht in Hexec; try discriminate.
  - destruct (leaked w); [discriminate|]. injection Hexec as <-. simpl.
    repeat split; try assumption.
    + rewrite length_app. simpl. lia.
    + apply Forall_app. split; [exact Hall|]. repeat constructor.
  - destruct (leaked w); [discriminate|].
    destruct (Z.ltb_spec (running_builds (store w)) max_containers); [lia|].
    injection Hexec as <-. repeat split; assumption.
  - destruct (leaked w); [discriminate|].
    destruct (getJobList _); injection Hexec as <-; simpl;
      repeat split; assumption.
Qed.

Lemma idle_inv_run ls : forall w w',
  idle_inv w -> run max_containers ls w = Some w' -> idle_inv w'.
Proof.
  induction ls as [|l ls IH]; intros w w' Hinv Hrun; simpl in Hrun.
  - injection Hrun as <-. exact Hinv.
  - destruct (exec max_containers l w) as [w1|] eqn:Hexec; [|discriminate].
    exact (IH _ _ (idle_inv_exec _ _ _ Hinv Hexec) Hrun).
Qed.

End NoRoom.

(** [loadDaemonSettings] accepts any integer for [daemon_max_containers].
    With a value of zero or less the daemon never builds anything: in
    every state it reaches no worker thread exists, the running counter is
    0, and every job that was detected is still queued, without container
    and without start time. *)
Theorem no_capacity_never_builds (max_containers : Z) (w : World) :
  max_containers <= 0 ->
  reachable max_containers w ->
  threads w = [] /\ sched w = Sleeping /\
  running_builds (store w) = 0 /\
  scheduled_builds (store w) = Z.of_nat (length (jobs (store w))) /\
  Forall (fun j => status j = Queued /\ time_started j = None /\
                   container_id j = "") (jobs (store w)).
Proof.
  intros Hmax [ls Hrun].
  assert (Hinit : idle_inv initial_world)
    by (repeat split; constructor).
  destruct (idle_inv_run max_containers Hmax ls _ _ Hinit Hrun)
    as (Hs & Ht & Hr & Hq & Hall).
  repeat split; assumption.
Qed.

(** A revision is detected by a daemon that allows no container. *)
Lemma no_capacity_never_builds_witness :
  0 <= 0 /\ reachable 0 Fixture.detected_world /\
  threads Fixture.detected_world = [] /\
  scheduled_builds (store Fixture.detected_world) = 2.
Proof.
  assert (Hreach : reachable 0 Fixture.detected_world).
  { exists [LEnqueue Sample.book "DC-a" "c1"; LEnqueue Sample.book "DC-b" "c1";
            LSchedRead]. reflexivity. }
  split; [lia|]. split; [exact Hreach|].
  pose proof (no_capacity_never_builds 0 Fixture.detected_world
                ltac:(lia) Hreach) as (Ht & _ & _ & Hq & _).
  split; [exact Ht|exact Hq].
Defined.

(** ** What a detection pass adds *)

Lemma set_lastrev_same (p : Project) : set_lastrev p (vcs_lastrev p) = p.
Proof. destruct p; reflexivity. Qed.

Lemma check_project_effect (upstream : string -> string -> string)
  (p : Project) (info : DaemonInfo) :
  check_project upstream p info =
  (refreshed upstream p,
   {| jobs := jobs info ++ detected_jobs upstream p;
      scheduled_builds :=
        scheduled_builds info + Z.of_nat (length (detected_jobs upstream p));
      running_builds := running_builds info |},
   detected_updates upstream p).
Proof.
  unfold refreshed, detected_jobs, detected_updates.
  destruct (String.eqb_spec (vcs_lastrev p)
              (upstream (repo p) (vcs_branch p))) as [Heq|Hne].
  - rewrite (check_project_unchanged upstream p info Heq).
    rewrite <- Heq, set_lastrev_same. simpl.
    rewrite app_nil_r, Z.add_0_r. destruct info; reflexivity.
  - rewrite (check_project_changed upstream p info Hne).
    rewrite length_map. reflexivity.
Qed.

(** One detection pass, whatever the revisions found.  The projects are
    all brought to the tip of their branch.  The store gains, behind the
    jobs it holds, one job per build-control file of each project whose
    revision changed, in the order of the projects and of their files; the
    queued counter grows by the number of these jobs and the running
    counter is not touched.  One commit-hash update is recorded per
    changed project.  Every job added is queued, has no container and no
    start time, and carries the project as it is after the update, so with
    the commit of the job as its last revision. *)
Theorem prepare_build_task_effect (upstream : string -> string -> string)
  (ps : list Project) (info : DaemonInfo) :
  _prepare_build_task upstream ps info =
  (map (refreshed upstream) ps,
   {| jobs := jobs info ++ flat_map (detected_jobs upstream) ps;
      scheduled_builds :=
        scheduled_builds info +
        Z.of_nat (length (flat_map (detected_jobs upstream) ps));
      running_builds := running_builds info |},
   flat_map (detected_updates upstream) ps) /\
  Forall (fun j => status j = Queued /\ container_id j = "" /\
                   time_started j = None /\
                   vcs_lastrev (job_project j) = commit j /\
                   In (dc_file j) (dc_files (job_project j)))
         (flat_map (detected_jobs upstream) ps).
Proof.
  split.
  - revert info. induction ps as [|p ps IH]; intros info.
    + simpl. rewrite app_nil_r, Z.add_0_r. destruct info; reflexivity.
    + simpl _prepare_build_task. rewrite check_project_effect, IH. simpl.
      rewrite <- app_assoc, length_app. do 3 f_equal. lia.
  - apply Forall_flat_map. apply Forall_forall. intros p _.
    unfold detected_jobs.
    destruct (String.eqb _ _); [constructor|].
    apply Forall_forall. intros j Hj.
    apply list_elem_of_fmap in Hj as [dc [-> Hdc]]. simpl.
    repeat split; try reflexivity. apply list_elem_of_In. exact Hdc.
Qed.

(** ** Batches of builds *)

Lemma running_first_insert (front : list Job) :
  forall (back : list Job) (idx : nat) (j j' : Job),
  Forall (fun x => status x = Running) front ->
  Forall (fun x => status x = Queued) back ->
  (front ++ back) !! idx = Some j -> status j' = status j ->
  running_first (<[idx := j']> (front ++ back)).
Proof.
  induction front as [|a front IH]; intros back idx j j' Hf Hb Hj Hs.
  - exists [], (<[idx := j']> back). split; [reflexivity|].
    split; [constructor|]. apply Forall_insert; [exact Hb|].
    rewrite Hs. exact (Forall_lookup_1 _ _ _ _ Hb Hj).
  - inversion Hf as [|? ? Ha Hf']; subst.
    destruct idx as [|idx]; simpl in *.
    + injection Hj as <-. exists (j' :: front), back.
      split; [reflexivity|]. split; [|exact Hb].
      constructor; [rewrite Hs; exact Ha|exact Hf'].
    + destruct (IH back idx j j' Hf' Hb Hj Hs) as (f & b & Heq & Hf2 & Hb2).
      exists (a :: f), b. rewrite Heq.
      split; [reflexivity|]. split; [constructor; assumption|exact Hb2].
Qed.

Lemma running_first_delete (front : list Job) :
  forall (back : list Job) (idx : nat),
  Forall (fun x => status x = Running) front ->
  Forall (fun x => status x = Queued) back ->
  running_first (delete idx (front ++ back)).
Proof.
  induction front as [|a front IH]; intros back idx Hf Hb.
  - exists [], (delete idx back). split; [reflexivity|].
    split; [constructor|]. apply Forall_delete. exact Hb.
  - inversion Hf as [|? ? Ha Hf']; subst.
    destruct idx as [|idx]; simpl.
    + exists front, back. repeat split; assumption.
    + destruct (IH back idx Hf' Hb) as (f & b & Heq & Hf2 & Hb2).
      exists (a :: f), b. rewrite Heq.
      split; [reflexivity|]. split; [constructor; assumption|exact Hb2].
Qed.

(** A pass of the scheduler that meets a running job at the front starts
    nothing, whatever room is left. *)
Lemma tick_blocked_by_running_head (max_containers : Z) (clock : nat -> Z)
  (info : DaemonInfo) (j : Job) (rest : list Job) :
  jobs info = j :: rest -> status j = Running ->
  jobManager_tick max_containers clock info = Py.Ok (info, []).
Proof.
  intros Hjobs Hs. rewrite jobManager_tick_spec.
  assert (Hk : promoted max_containers info = 0%nat).
  { unfold promoted. rewrite Hjobs. simpl. rewrite Hs. simpl.
    apply Nat.min_0_r. }
  rewrite Hk. simpl. rewrite Z.sub_0_r, Z.add_0_r.
  destruct info; reflexivity.
Qed.

Section Batches.

Variable max_containers : Z.

Lemma running_first_exec (l : atomic_label) (a a' : Atomic) :
  running_first (jobs (a_store a)) ->
  atomic_exec max_containers l a = Some a' ->
  running_first (jobs (a_store a')).
Proof.
  intros (front & back & Heq & Hf & Hb) Hexec.
  destruct l as [p dc c|clock|i cid|i]; simpl in Hexec.
  - injection Hexec as <-. simpl. exists front, (back ++ [new_job p dc c]).
    rewrite Heq, <- app_assoc. split; [reflexivity|]. split; [exact Hf|].
    apply Forall_app. split; [exact Hb|]. repeat constructor.
  - destruct front as [|j front].
    + rewrite jobManager_tick_spec in Hexec. injection Hexec as <-. simpl.
      set (k := promoted max_containers (a_store a)).
      destruct (promoted_jobs (take k (jobs (a_store a))) clock)
        as (Hall & _ & _).
      eexists _, _. split; [reflexivity|]. split; [exact Hall|].
      rewrite Heq. simpl. apply Forall_drop. exact Hb.
    + inversion Hf as [|? ? Hj Hf']; subst.
      rewrite (tick_blocked_by_running_head max_containers clock (a_store a)
                 j (front ++ back) Heq Hj) in Hexec.
      injection Hexec as <-. simpl.
      exists (j :: front), back. repeat split; assumption.
  - destruct (a_workers a !! i) as [args|]; [|discriminate].
    injection Hexec as <-. simpl. unfold record_container.
    destruct (list_find _ _) as [[idx j]|] eqn:Hfind;
      [|exists front, back; repeat split; assumption].
    apply list_find_Some in Hfind as (Hj & _ & _). simpl.
    rewrite Heq in *.
    exact (running_first_insert front back idx j (set_container_id j cid)
             Hf Hb Hj eq_refl).
  - destruct (a_workers a !! i) as [args|]; [|discriminate].
    injection Hexec as <-. simpl.
    destruct (list_find _ _) as [[idx j]|];
      [|exists front, back; repeat split; assumption].
    rewrite Heq. exact (running_first_delete front back idx Hf Hb).
Qed.

Lemma batches_inv_run (ls : list atomic_label) : forall a a',
  atomic_inv a -> running_first (jobs (a_store a)) ->
  atomic_run max_containers ls a = Some a' ->
  atomic_inv a' /\ running_first (jobs (a_store a')).
Proof.
  induction ls as [|l ls IH]; intros a a' Hinv Hrf Hrun; simpl in Hrun.
  - injection Hrun as <-. split; assumption.
  - destruct (atomic_exec max_containers l a) as [a1|] eqn:Hexec;
      [|discriminate].
    exact (IH _ _ (atomic_inv_exec max_containers _ _ _ Hinv Hexec)
                  (running_first_exec _ _ _ Hrf Hexec) Hrun).
Qed.

Lemma batches_inv_initial :
  atomic_inv initial_atomic /\ running_first (jobs (a_store initial_atomic)).
Proof.
  split; [split; [split; reflexivity|reflexivity]|].
  exists [], []. repeat split; constructor.
Qed.

End Batches.



(** When no pass of the scheduler is interrupted, the running jobs stand
    before the queued ones, and builds go in batches: as long as one
    worker of a batch is alive, a pass of the scheduler starts nothing and
    changes nothing, also when fewer containers are in use than the
    maximum allows and jobs are waiting. *)
Theorem workers_block_scheduler (max_containers : Z)
  (ls : list atomic_label) (a : Atomic) (clock : nat -> Z) :
  atomic_run max_containers ls initial_atomic = Some a ->
  running_first (jobs (a_store a)) /\
  (a_workers a <> [] ->
   jobManager_tick max_containers clock (a_store a) =
     Py.Ok (a_store a, [])).
Proof.
  intros Hrun.
  destruct (batches_inv_run max_containers ls _ _
              (proj1 batches_inv_initial) (proj2 batches_inv_initial) Hrun)
    as [[_ Hw] Hrf].
  split; [exact Hrf|]. intros Halive.
  destruct Hrf as (front & back & Heq & Hf & Hb).
  destruct front as [|j front].
  - exfalso. apply Halive.
    assert (Hnone : running_files (jobs (a_store a)) = []).
    { apply running_files_none. rewrite Heq. simpl.
      eapply Forall_impl; [exact Hb|]. intros x Hx. simpl in Hx.
      rewrite Hx. discriminate. }
    rewrite Hnone in Hw. apply Permutation_nil_r in Hw.
    destruct (a_workers a); [reflexivity|discriminate].
  - inversion Hf as [|? ? Hj _]; subst.
    exact (tick_blocked_by_running_head max_containers clock (a_store a)
             j (front ++ back) Heq Hj).
Qed.

(** With five containers allowed and one in use, the queued job is not
    started. *)
Lemma workers_block_scheduler_witness :
  atomic_run 5 Fixture.late_arrival initial_atomic =
    Some Fixture.late_arrival_state /\
  length (a_workers Fixture.late_arrival_state) = 1%nat /\
  scheduled_builds (a_store Fixture.late_arrival_state) = 1 /\
  jobManager_tick 5 Sample.clock (a_store Fixture.late_arrival_state) =
    Py.Ok (a_store Fixture.late_arrival_state, []).
Proof.
  split; [reflexivity|]. split; [reflexivity|]. split; [reflexivity|].
  apply (workers_block_scheduler 5 Fixture.late_arrival
           Fixture.late_arrival_state Sample.clock eq_refl).
  discriminate.
Defined.

(** ** The worker in every case *)

Lemma bind_events {A B : Type} (P : event -> Prop) (m : M A) (k : A -> M B) :
  Forall P (fst m) ->
  (forall a, snd m = Py.Ok a -> Forall P (fst (k a))) ->
  Forall P (fst (bind m k)).
Proof.
  destruct m as [es [a|e]]; simpl; intros Hm Hk; [|exact Hm].
  specialize (Hk a eq_refl). destruct (k a) as [es' r]. simpl in *.
  apply Forall_app. split; assumption.
Qed.

Lemma getitem_events (P : event -> Prop) (d : gmap string rval)
  (key : string) : Forall P (fst (getitem d key)).
Proof. unfold getitem. destruct (d !! key); constructor. Qed.

Lemma getitem_ok (d : gmap string rval) (key : string) (v : rval) :
  snd (getitem d key) = Py.Ok v -> d !! key = Some v.
Proof.
  unfold getitem. destruct (d !! key); simpl; [|discriminate].
  intros [= ->]. reflexivity.
Qed.

Lemma delitem_events (P : event -> Prop) (d : gmap string rval)
  (key : string) : Forall P (fst (delitem d key)).
Proof. unfold delitem. destruct (d !! key); constructor. Qed.

Lemma delitem_ok (d d' : gmap string rval) (key : string) :
  snd (delitem d key) = Py.Ok d' -> d' = delete key d.
Proof.
  unfold delitem. destruct (d !! key); simpl; [|discriminate].
  intros [= <-]. reflexivity.
Qed.

Lemma emit_events (P : event -> Prop) (e : event) :
  P e -> Forall P (fst (emit e)).
Proof. intros He. repeat constructor. exact He. Qed.

Lemma for_each_events {A : Type} (P : event -> Prop) (body : A -> M unit)
  (xs : list A) :
  (forall x, x ∈ xs -> Forall P (fst (body x))) ->
  Forall P (fst (for_each xs body)).
Proof.
  induction xs as [|x xs IH]; intros Hbody; [constructor|].
  simpl. apply bind_events.
  - apply Hbody. apply list_elem_of_here.
  - intros _ _. apply IH. intros y Hy. apply Hbody.
    apply list_elem_of_further. exact Hy.
Qed.

Section Worker.

Variables BUILDS_DIR LOG_DIR hostname : string.
Variables debug ircbot : bool.
Variable irc_config : IrcConfig.
Variable now : string -> Z.

Lemma notify_events (P : event -> Prop) (p : Project) (message : string) :
  (forall client, P (EvClientMessage client message)) ->
  P (EvChannelMessage message) ->
  Forall P (fst (notify irc_config p message)).
Proof.
  intros Hclient Hchannel. unfold notify. apply bind_events.
  - apply for_each_events. intros client _. apply emit_events, Hclient.
  - intros _ _. destruct (irc_channel_messages irc_config);
      [apply emit_events, Hchannel|constructor].
Qed.

Lemma build_format_build_events (c : Container) (p : Project)
  (dc f : string) :
  Forall build_event
    (fst (build_format BUILDS_DIR LOG_DIR hostname debug ircbot irc_config
            now c p dc f)).
Proof.
  unfold build_format.
  apply bind_events; [apply emit_events; exact I|intros _ _].
  apply bind_events; [apply getitem_events|intros archive _].
  apply bind_events; [apply delitem_events|intros result _].
  apply bind_events; [apply emit_events; exact I|intros _ _].
  apply bind_events;
    [destruct debug; [constructor|apply delitem_events]|intros result' _].
  apply bind_events; [apply getitem_events|intros build_status _].
  destruct (truthy build_status).
  - do 4 (apply bind_events; [apply emit_events; exact I|intros _ _]).
    destruct (ircbot && irc_inform_build_success irc_config); [|constructor].
    apply bind_events; [apply getitem_events|intros rdc _].
    apply bind_events; [apply getitem_events|intros rf _].
    apply notify_events; intros; exact I.
  - apply bind_events; [apply getitem_events|intros rdc _].
    apply bind_events; [apply getitem_events|intros rf _].
    apply bind_events; [apply emit_events; exact I|intros _ _].
    apply bind_events; [apply getitem_events|intros build_log _].
    apply bind_events.
    { destruct build_log; [apply emit_events; exact I|constructor..]. }
    intros _ _.
    destruct (ircbot && irc_inform_build_fail irc_config); [|constructor].
    apply bind_events; [apply getitem_events|intros rdc' _].
    apply bind_events; [apply getitem_events|intros rf' _].
    apply notify_events; intros; exact I.
Qed.

Lemma build_format_build_info (c : Container) (p : Project) (dc f : string) :
  f ∈ build_formats ->
  Forall (build_info_event debug c dc)
    (fst (build_format BUILDS_DIR LOG_DIR hostname debug ircbot irc_config
            now c p dc f)).
Proof.
  intros Hf. unfold build_format.
  apply bind_events; [apply emit_events; exact I|intros _ _].
  apply bind_events; [apply getitem_events|intros archive _].
  apply bind_events; [apply delitem_events|intros result Hresult].
  apply delitem_ok in Hresult. subst result.
  fold (merged_result c dc f).
  apply bind_events; [apply emit_events; exact I|intros _ _].
  apply bind_events;
    [destruct debug; [constructor|apply delitem_events]|intros result Hresult].
  assert (Hfinal : result = final_result debug c dc f).
  { unfold final_result. destruct debug.
    - injection Hresult as <-. reflexivity.
    - apply delitem_ok in Hresult. exact Hresult. }
  clear Hresult. subst result.
  apply bind_events; [apply getitem_events|intros build_status Hstatus].
  apply getitem_ok in Hstatus.
  destruct (truthy build_status) eqn:Htrue.
  - apply bind_events.
    { apply emit_events. split; [reflexivity|].
      exists f, build_status. repeat split; assumption. }
    intros _ _.
    do 3 (apply bind_events; [apply emit_events; exact I|intros _ _]).
    destruct (ircbot && irc_inform_build_success irc_config); [|constructor].
    apply bind_events; [apply getitem_events|intros rdc _].
    apply bind_events; [apply getitem_events|intros rf _].
    apply notify_events; intros; exact I.
  - apply bind_events; [apply getitem_events|intros rdc _].
    apply bind_events; [apply getitem_events|intros rf _].
    apply bind_events; [apply emit_events; exact I|intros _ _].
    apply bind_events; [apply getitem_events|intros build_log _].
    apply bind_events.
    { destruct build_log; [apply emit_events; exact I|constructor..]. }
    intros _ _.
    destruct (ircbot && irc_inform_build_fail irc_config); [|constructor].
    apply bind_events; [apply getitem_events|intros rdc' _].
    apply bind_events; [apply getitem_events|intros rf' _].
    apply notify_events; intros; exact I.
Qed.

(** The worker as its prologue, the loop over the formats and, when the
    loop returns, its epilogue. *)
Lemma process_shape (c : Container) (p : Project) (dc : string) :
  let body := for_each build_formats
                (build_format BUILDS_DIR LOG_DIR hostname debug ircbot
                              irc_config now c p dc) in
  _process BUILDS_DIR LOG_DIR hostname debug ircbot irc_config now c p dc =
  match snd body with
  | Py.Ok _ =>
      (process_prologue c p dc ++ fst body ++
       EvFinish dc :: (if debug then [] else [EvKill]), Py.Ok tt)
  | Py.Raise e => (process_prologue c p dc ++ fst body, Py.Raise e)
  end.
Proof.
  intros body. unfold _process, emit.
  repeat (rewrite bind_ok; cbv beta). fold body.
  destruct body as [es [[]|e]]; simpl.
  - destruct debug; simpl; reflexivity.
  - reflexivity.
Qed.

End Worker.

(** Whatever the build environment answers, a worker spawns its
    container, records it and prepares it, and then handles the formats.
    When the loop over the formats returns, the worker enters its last
    critical section and, outside debug mode, kills the container.  When
    an exception leaves the loop, the worker ends there: its last critical
    section is never entered, so the running counter is not decremented
    and the job is not removed, and the container is not killed. *)
Theorem worker_raise_skips_completion
  (BUILDS_DIR LOG_DIR hostname : string) (debug ircbot : bool)
  (irc_config : IrcConfig) (now : string -> Z)
  (c : Container) (p : Project) (dc : string) :
  let r := _process BUILDS_DIR LOG_DIR hostname debug ircbot irc_config now
                    c p dc in
  exists body : list event,
    Forall build_event body /\
    (r = ([EvSpawn; EvRecordContainer dc (getContainerID c);
           EvPrepare (vcs_repodir p)] ++ body ++
          EvFinish dc :: (if debug then [] else [EvKill]), Py.Ok tt) \/
     exists e,
       r = ([EvSpawn; EvRecordContainer dc (getContainerID c);
             EvPrepare (vcs_repodir p)] ++ body, Py.Raise e) /\
       Forall (fun ev => ev <> EvFinish dc /\ ev <> EvKill) (fst r)).
Proof.
  intros r. subst r. rewrite process_shape.
  set (body := for_each build_formats _).
  assert (Hbody : Forall build_event (fst body)).
  { subst body. apply for_each_events. intros f _.
    apply build_format_build_events. }
  exists (fst body). split; [exact Hbody|].
  destruct (snd body) as [[]|e].
  - left. reflexivity.
  - right. exists e. split; [reflexivity|]. simpl.
    repeat (constructor; [split; discriminate|]).
    eapply Forall_impl; [exact Hbody|].
    intros ev Hev. destruct ev; simpl in Hev; try contradiction;
      split; discriminate.
Qed.

(** Every file a worker creates in the container is
    [/tmp/build_info.json], and what it holds is the result of a format
    whose build succeeded, after the archive name was removed and the
    document information merged in.  Outside debug mode it never carries
    the build command [dapscmd]; in debug mode it carries the id of the
    container. *)
Theorem build_info_contents
  (BUILDS_DIR LOG_DIR hostname : string) (debug ircbot : bool)
  (irc_config : IrcConfig) (now : string -> Z)
  (c : Container) (p : Project) (dc path : string) (d : gmap string rval) :
  In (EvFileCreate path d)
     (fst (_process BUILDS_DIR LOG_DIR hostname debug ircbot irc_config now
                    c p dc)) ->
  path = "/tmp/build_info.json" /\
  (exists (f : string) (v : rval),
      f ∈ build_formats /\ d = final_result debug c dc f /\
      d !! "build_status" = Some v /\ truthy v = true) /\
  (debug = false -> d !! "dapscmd" = None) /\
  (debug = true -> d !! "container_id" = Some (RStr (getContainerID c))).
Proof.
  intros Hin.
  assert (Hall : Forall (build_info_event debug c dc)
            (fst (_process BUILDS_DIR LOG_DIR hostname debug ircbot
                    irc_config now c p dc))).
  { rewrite process_shape.
    set (body := for_each build_formats _).
    assert (Hbody : Forall (build_info_event debug c dc) (fst body)).
    { subst body. apply for_each_events. intros f Hf.
      apply build_format_build_info. exact Hf. }
    destruct (snd body) as [[]|e]; simpl;
      repeat (constructor; [exact I|]).
    - apply Forall_app. split; [exact Hbody|].
      constructor; [exact I|]. destruct debug; repeat constructor.
    - exact Hbody. }
  rewrite Forall_forall in Hall.
  specialize (Hall _ (proj2 (list_elem_of_In _ _) Hin)). simpl in Hall.
  destruct Hall as [Hpath (f & v & Hf & Hd & Hv & Htrue)].
  split; [exact Hpath|]. split; [exists f, v; repeat split; assumption|].
  split; intros ->; subst d; unfold final_result.
  - apply lookup_delete_eq.
  - apply lookup_insert_eq.
Qed.

(** The successful [single_html] build of the sample build environment,
    outside debug mode. *)
Lemma build_info_contents_witness :
  In (EvFileCreate "/tmp/build_info.json"
        (final_result false Sample.container "DC-mybook" "single_html"))
     (fst (_process "/builds" "/logs" "host" false true Sample.irc
             Sample.now Sample.container Sample.book "DC-mybook")) /\
  final_result false Sample.container "DC-mybook" "single_html"
    !! "dapscmd" = None.
Proof.
  assert (Hin : In (EvFileCreate "/tmp/build_info.json"
                      (final_result false Sample.container "DC-mybook"
                                    "single_html"))
                   (fst (_process "/builds" "/logs" "host" false true
                           Sample.irc Sample.now Sample.container
                           Sample.book "DC-mybook"))).
  { vm_compute. repeat (first [left; reflexivity | right]). }
  split; [exact Hin|].
  exact (proj1 (proj2 (proj2
           (build_info_contents "/builds" "/logs" "host" false true
              Sample.irc Sample.now Sample.container Sample.book
              "DC-mybook" "/tmp/build_info.json" _ Hin))) eq_refl).
Defined.

(** Outside debug mode the worker deletes the key [dapscmd] from every
    result.  When the first result does not carry it, [KeyError] leaves
    the worker right after the first build, whether or not that build
    succeeded: nothing is fetched or logged, no other format is built, and
    the worker never reaches its last critical section. *)
Theorem missing_build_command_aborts_worker
  (BUILDS_DIR LOG_DIR hostname : string) (ircbot : bool)
  (irc_config : IrcConfig) (now : string -> Z)
  (c : Container) (p : Project) (dc : string) (archive : rval) :
  buildDocumentation c dc "html" !! "archive_name" = Some archive ->
  merged_result c dc "html" !! "dapscmd" = None ->
  _process BUILDS_DIR LOG_DIR hostname false ircbot irc_config now c p dc =
  ([EvSpawn; EvRecordContainer dc (getContainerID c);
    EvPrepare (vcs_repodir p); EvBuild dc "html";
    EvExecute "cat /tmp/doc_info.json"],
   Py.Raise (Py.KeyError "dapscmd")).
Proof.
  intros Harch Hcmd. rewrite process_shape.
  assert (Hhtml : build_format BUILDS_DIR LOG_DIR hostname false ircbot
                    irc_config now c p dc "html" =
                  ([EvBuild dc "html"; EvExecute "cat /tmp/doc_info.json"],
                   Py.Raise (Py.KeyError "dapscmd"))).
  { unfold build_format, emit.
    rewrite bind_ok; cbv beta.
    rewrite (getitem_some _ _ _ Harch), bind_ok; cbv beta.
    rewrite delitem_some by (eexists; exact Harch).
    rewrite bind_ok; cbv beta. rewrite bind_ok; cbv beta.
    fold (merged_result c dc "html").
    unfold delitem. rewrite Hcmd. reflexivity. }
  unfold build_formats. simpl for_each. rewrite Hhtml. reflexivity.
Qed.

(** A build environment whose results do not carry the build command. *)
Lemma missing_build_command_aborts_worker_witness :
  buildDocumentation Fixture.terse_container "DC-mybook" "html"
    !! "archive_name" = Some (RStr "/tmp/out.tar") /\
  merged_result Fixture.terse_container "DC-mybook" "html" !! "dapscmd"
    = None /\
  snd (_process "/builds" "/logs" "host" false true Sample.irc Sample.now
         Fixture.terse_container Sample.book "DC-mybook") =
  Py.Raise (Py.KeyError "dapscmd").
Proof.
  split; [reflexivity|]. split; [reflexivity|].
  rewrite (missing_build_command_aborts_worker "/builds" "/logs" "host" true
             Sample.irc Sample.now Fixture.terse_container Sample.book
             "DC-mybook" (RStr "/tmp/out.tar") eq_refl eq_refl).
  reflexivity.
Defined.

(** ** The first critical section of a worker *)

(** The first critical section of a worker touches no counter and no
    field of any job but one container id: that of the first job of the
    sequence whose build-control file is the worker's and whose status is
    Running.  When no job matches, as for a worker whose job is not yet
    marked as running, the store stays as it is and the id is recorded
    nowhere.  A second worker of the same build-control file writes to the
    same job: its id replaces the first one, and the job it was started
    for keeps an empty id. *)
Theorem record_container_frame (dc cid : string) (info : DaemonInfo) :
  scheduled_builds (record_container dc cid info) = scheduled_builds info /\
  running_builds (record_container dc cid info) = running_builds info /\
  map job_identity (jobs (record_container dc cid info)) =
    map job_identity (jobs info) /\
  ((exists (before : list Job) (j : Job) (after : list Job),
       jobs info = before ++ j :: after /\
       dc_file j = dc /\ status j = Running /\
       Forall (fun x => ~ (dc_file x = dc /\ status x = Running)) before /\
       jobs (record_container dc cid info) =
         before ++ set_container_id j cid :: after) \/
   (Forall (fun x => ~ (dc_file x = dc /\ status x = Running)) (jobs info) /\
    record_container dc cid info = info)) /\
  (forall cid2 : string,
      record_container dc cid2 (record_container dc cid info) =
      record_container dc cid2 info).
Proof.
  unfold record_container.
  destruct (list_find (job_matches dc) (jobs info)) as [[idx j]|] eqn:Hfind.
  - pose proof Hfind as Hfound.
    apply list_find_Some in Hfind as (Hj & [Hdc Hst] & Hfirst).
    pose proof (lookup_lt_Some _ _ _ Hj) as Hlt.
    simpl. split; [reflexivity|]. split; [reflexivity|].
    split; [|split].
    + rewrite insert_take_drop by exact Hlt.
      rewrite <- (take_drop_middle _ _ _ Hj) at 3.
      rewrite !map_app. reflexivity.
    + left. exists (take idx (jobs info)), j, (drop (S idx) (jobs info)).
      split; [symmetry; apply take_drop_middle; exact Hj|].
      split; [exact Hdc|]. split; [exact Hst|].
      split; [|apply insert_take_drop; exact Hlt].
      apply Forall_forall. intros x Hx.
      apply list_elem_of_lookup in Hx as [i Hi].
      pose proof (lookup_lt_Some _ _ _ Hi) as Hlti.
      rewrite length_take in Hlti.
      rewrite lookup_take_lt in Hi by lia.
      apply (Hfirst i x Hi). lia.
    + intros cid2.
      assert (Hagain :
        list_find (job_matches dc)
                  (<[idx := set_container_id j cid]> (jobs info)) =
        Some (idx, set_container_id j cid)).
      { apply list_find_insert_Some. right. left.
        split; [reflexivity|]. split; [reflexivity|].
        split; [exact Hlt|]. split; [split; assumption|exact Hfirst]. }
      rewrite Hagain. simpl. rewrite list_insert_insert_eq. reflexivity.
  - simpl. split; [reflexivity|]. split; [reflexivity|].
    split; [reflexivity|]. split.
    + right. split; [|reflexivity].
      apply list_find_None in Hfind. exact Hfind.
    + intros cid2. rewrite Hfind. reflexivity.
Qed.

(** ** One connection of the status API *)

Lemma reply_id_is_one (m : Received) (r : StatusReply) :
  handle m = Reply r -> Json.eq_one (r_id r) = true.
Proof.
  unfold handle, _api_server_runtime.
  destruct (rc_parsed m) as [data|]; [|discriminate].
  destruct (Json.contains "id" data) as [[|]|[]]; try discriminate.
  destruct (Json.subscript "id" data) as [id|[]]; try discriminate.
  destruct (Json.eq_one id) eqn:Hone; [|discriminate].
  destruct (getJobList _) as [views|[]]; try discriminate.
  intros [= <-]. exact Hone.
Qed.

Lemma api_connection_ids (msgs : list Received) :
  Forall (fun r => Json.eq_one (r_id r) = true) (fst (api_connection msgs)).
Proof.
  induction msgs as [|m msgs IH]; simpl; [constructor|].
  destruct (handle m) as [r| |e] eqn:Hm; try constructor.
  destruct (api_connection msgs) as [rs e]. simpl in *.
  constructor; [exact (reply_id_is_one m r Hm)|exact IH].
Qed.

(** A connection is served up to the first message that gets no reply.
    Every message before it is answered, in order, with a reply whose id
    equals 1; that message ends the coroutine, by a close or by the
    exception that leaves it; and no message after it is looked at. *)
Theorem connection_ends_at_first_unanswered (pre post : list Received)
  (m : Received) :
  forallb answered pre = true ->
  answered m = false ->
  api_connection (pre ++ m :: post) = api_connection (pre ++ [m]) /\
  length (fst (api_connection (pre ++ m :: post))) = length pre /\
  Forall (fun r => Json.eq_one (r_id r) = true)
         (fst (api_connection (pre ++ m :: post))) /\
  snd (api_connection (pre ++ m :: post)) =
    match handle m with
    | Escapes e => Crashed e
    | _ => ServerClosed
    end.
Proof.
  intros Hpre Hm. split; [|split; [|split]].
  - induction pre as [|x pre IH]; simpl in *.
    + unfold answered in Hm. destruct (handle m); [discriminate|reflexivity..].
    + apply andb_true_iff in Hpre as [Hx Hpre]. unfold answered in Hx.
      destruct (handle x); try discriminate. rewrite (IH Hpre). reflexivity.
  - induction pre as [|x pre IH]; simpl in *.
    + unfold answered in Hm. destruct (handle m); [discriminate|reflexivity..].
    + apply andb_true_iff in Hpre as [Hx Hpre]. unfold answered in Hx.
      destruct (handle x); try discriminate. specialize (IH Hpre).
      destruct (api_connection (pre ++ m :: post)). simpl in *. lia.
  - apply api_connection_ids.
  - induction pre as [|x pre IH]; simpl in *.
    + unfold answered in Hm. destruct (handle m); [discriminate|reflexivity..].
    + apply andb_true_iff in Hpre as [Hx Hpre]. unfold answered in Hx.
      destruct (handle x); try discriminate. specialize (IH Hpre).
      destruct (api_connection (pre ++ m :: post)). simpl in *. exact IH.
Qed.

(** Two status requests, then a message that is not JSON, then another
    status request. *)
Lemma connection_ends_at_first_unanswered_witness :
  forallb answered [Fixture.ask; Fixture.ask] = true /\
  answered Fixture.garbage = false /\
  length (fst (api_connection
                 ([Fixture.ask; Fixture.ask] ++
                  Fixture.garbage :: [Fixture.ask]))) = 2%nat.
Proof.
  split; [reflexivity|]. split; [reflexivity|].
  exact (proj1 (proj2
           (connection_ends_at_first_unanswered [Fixture.ask; Fixture.ask]
              [Fixture.ask] Fixture.garbage eq_refl eq_refl))).
Defined.

(** ** Startup *)

Section StartupFacts.

Variables DAEMON_DEFAULT_INTERVAL DAEMON_DEFAULT_MAX_CONTAINERS
          API_SERVER_DEFAULT_PORT : Z.
Variables E_INVALID_GIT_REPO E_DOCKER_IMAGE_MISSING : Z.
Variable get_prop : string -> option string.
Variable Cfg : Type.
Variable AutoBuildConfig : string -> startup Cfg.
Variable fetchProjects : Cfg -> startup (list Project).
Variable user : string.
Variable groups : list Group.
Variable is_image_imported : bool.

(** The integer settings can only fail with [ValueError]. *)
Lemma loadDaemonSettings_raises (e : Py.exn) :
  loadDaemonSettings DAEMON_DEFAULT_INTERVAL DAEMON_DEFAULT_MAX_CONTAINERS
                     API_SERVER_DEFAULT_PORT get_prop = Py.Raise e ->
  e = Py.ValueError.
Proof.
  assert (Hint : forall key default e',
            int_or_default get_prop key default = Py.Raise e' ->
            e' = Py.ValueError).
  { intros key default e'. unfold int_or_default, PyInt.int.
    destruct (get_prop key) as [text|]; [|discriminate].
    unfold PyInt.of_string.
    destruct (PyInt.rstrip (PyInt.lstrip text)) as [|ch rest];
      [simpl; intros [= <-]; reflexivity|].
    match goal with
    | |- context [let '(negative, ds) := ?x in _] => destruct x as [negative ds]
    end.
    destruct (PyInt.digits 0 false ds); [discriminate|].
    intros [= <-]. reflexivity. }
  unfold loadDaemonSettings.
  destruct (int_or_default get_prop "daemon_check_interval" _) eqn:H1;
    [|intros [= <-]; exact (Hint _ _ _ H1)].
  destruct (int_or_default get_prop "daemon_max_containers" _) eqn:H2;
    [|intros [= <-]; exact (Hint _ _ _ H2)].
  destruct (int_or_default get_prop "api_server_port" _) eqn:H3;
    [discriminate|intros [= <-]; exact (Hint _ _ _ H3)].
Qed.

Lemma user_in_docker_group_spec (u : string) (gs : list Group) :
  user_in_docker_group u gs = true <->
  exists g, g ∈ gs /\ gr_name g = "docker" /\ u ∈ gr_mem g.
Proof.
  induction gs as [|g gs IH]; simpl.
  - split; [discriminate|].
    intros (g & Hg & _). apply elem_of_nil in Hg. destruct Hg.
  - destruct (String.eqb_spec (gr_name g) "docker") as [Hname|Hname].
    + destruct (bool_decide (u ∈ gr_mem g)) eqn:Hmem.
      * apply bool_decide_eq_true in Hmem. split; [|reflexivity].
        intros _. exists g. split; [apply list_elem_of_here|]. split; assumption.
      * apply bool_decide_eq_false in Hmem. rewrite IH. split.
        -- intros (x & Hx & Hn & Hu). exists x.
           split; [apply list_elem_of_further; exact Hx|]. split; assumption.
        -- intros (x & Hx & Hn & Hu).
           apply elem_of_cons in Hx as [->|Hx]; [contradiction|].
           exists x. repeat split; assumption.
    + rewrite IH. split.
      * intros (x & Hx & Hn & Hu). exists x.
        split; [apply list_elem_of_further; exact Hx|]. split; assumption.
      * intros (x & Hx & Hn & Hu).
        apply elem_of_cons in Hx as [->|Hx]; [contradiction|].
        exists x. repeat split; assumption.
Qed.

End StartupFacts.

(** [_preperation] loads the IRC settings whether or not the daemon was
    asked to use IRC, and [loadIRCBotConfig] applies [int] to the port
    outside any [try].  Without the property [irc_server_port] the daemon
    therefore does not start, whatever its arguments and its other
    settings are: [execute] ends with a [TypeError], or with the
    [ValueError] of an integer setting read before.  No auto build
    configuration is opened and no requirement is checked. *)
Theorem startup_needs_irc_port
  (D_INTERVAL D_MAX_CONTAINERS D_PORT E_GIT E_IMAGE : Z)
  (get_prop : string -> option string) (Cfg : Type)
  (AutoBuildConfig : string -> startup Cfg)
  (fetchProjects : Cfg -> startup (list Project))
  (user : string) (groups : list Group) (is_image_imported : bool)
  (args : Args) :
  get_prop "irc_server_port" = None ->
  loadIRCBotConfig get_prop = Py.Raise Py.TypeError /\
  (execute D_INTERVAL D_MAX_CONTAINERS D_PORT E_GIT E_IMAGE get_prop Cfg
           AutoBuildConfig fetchProjects user groups is_image_imported args =
     Stopped (Uncaught Py.TypeError) \/
   execute D_INTERVAL D_MAX_CONTAINERS D_PORT E_GIT E_IMAGE get_prop Cfg
           AutoBuildConfig fetchProjects user groups is_image_imported args =
     Stopped (Uncaught Py.ValueError)) /\
  (forall settings,
      loadDaemonSettings D_INTERVAL D_MAX_CONTAINERS D_PORT get_prop =
        Py.Ok settings ->
      _preperation D_INTERVAL D_MAX_CONTAINERS D_PORT E_GIT get_prop Cfg
                   AutoBuildConfig fetchProjects args =
        Stopped (Uncaught Py.TypeError)).
Proof.
  intros Hport.
  assert (Hirc : loadIRCBotConfig get_prop = Py.Raise Py.TypeError)
    by (unfold loadIRCBotConfig; rewrite Hport; reflexivity).
  split; [exact Hirc|]. split.
  - unfold execute, _preperation.
    destruct (loadDaemonSettings _ _ _ _) as [settings|e] eqn:Hload.
    + left. rewrite Hirc. reflexivity.
    + right. rewrite (loadDaemonSettings_raises _ _ _ _ e Hload). reflexivity.
  - intros settings Hload. unfold _preperation. rewrite Hload, Hirc.
    reflexivity.
Qed.

(** A configuration without any property, and a daemon that is not asked
    to use IRC. *)
Lemma startup_needs_irc_port_witness :
  Sample.no_settings "irc_server_port" = None /\
  use_irc Fixture.plain_args = false /\
  _preperation 600 5 5555 3 Sample.no_settings string Fixture.open_config
               Fixture.fetch Fixture.plain_args =
    Stopped (Uncaught Py.TypeError).
Proof.
  split; [reflexivity|]. split; [reflexivity|].
  exact (proj2 (proj2
           (startup_needs_irc_port 600 5 5555 3 4 Sample.no_settings string
              Fixture.open_config Fixture.fetch "alice"
              Fixture.system_groups true Fixture.plain_args eq_refl))
           _ eq_refl).
Defined.

(** The auto build configuration file.  When [_preperation] returns, the
    file it opened has a name that is not empty: the one given on the
    command line when that is not empty, else the property
    [daps_autobuild_config]; the configuration object comes from that
    file, the projects from that object, and the store is empty.  When
    neither the command line nor the property names a file,
    [_preperation] ends with [AutoBuildConfigurationErrorException]
    provided the settings were loaded. *)
Theorem autobuild_config_choice
  (D_INTERVAL D_MAX_CONTAINERS D_PORT E_GIT : Z)
  (get_prop : string -> option string) (Cfg : Type)
  (AutoBuildConfig : string -> startup Cfg)
  (fetchProjects : Cfg -> startup (list Project)) (args : Args) :
  (forall st,
      _preperation D_INTERVAL D_MAX_CONTAINERS D_PORT E_GIT get_prop Cfg
                   AutoBuildConfig fetchProjects args = Done st ->
      exists file,
        p_autoBuildConfigFile st = Some file /\ file <> "" /\
        (if nonempty (autobuild_config args)
         then autobuild_config args = Some file
         else get_prop "daps_autobuild_config" = Some file) /\
        AutoBuildConfig file = Done (p_autoBuildConfig st) /\
        fetchProjects (p_autoBuildConfig st) = Done (p_projects st) /\
        p_daemon_info st = initial_info) /\
  (forall settings irc,
      loadDaemonSettings D_INTERVAL D_MAX_CONTAINERS D_PORT get_prop =
        Py.Ok settings ->
      loadIRCBotConfig get_prop = Py.Ok irc ->
      nonempty (autobuild_config args) = false ->
      nonempty (get_prop "daps_autobuild_config") = false ->
      _preperation D_INTERVAL D_MAX_CONTAINERS D_PORT E_GIT get_prop Cfg
                   AutoBuildConfig fetchProjects args =
        Stopped AutoBuildConfigurationErrorException).
Proof.
  split.
  - intros st. unfold _preperation.
    destruct (loadDaemonSettings _ _ _ _) as [settings|e]; [|discriminate].
    destruct (loadIRCBotConfig get_prop) as [irc|e]; [|discriminate].
    set (file := if nonempty (autobuild_config args) then _ else _).
    assert (Hfile : file = if nonempty (autobuild_config args)
                           then autobuild_config args
                           else get_prop "daps_autobuild_config")
      by reflexivity.
    clearbody file. unfold loadAutoBuildConfig.
    destruct file as [name|]; [|discriminate].
    destruct (String.eqb_spec name "") as [Hempty|Hne]; [discriminate|].
    destruct (AutoBuildConfig name) as [cfg|s] eqn:Hcfg; [|discriminate].
    destruct (fetchProjects cfg) as [ps|s] eqn:Hps;
      [|destruct s; discriminate].
    intros [= <-]. simpl. exists name.
    split; [reflexivity|]. split; [exact Hne|].
    split; [|repeat split; assumption].
    destruct (nonempty (autobuild_config args)); symmetry; exact Hfile.
  - intros settings irc Hload Hirc Harg Hprop.
    unfold _preperation. rewrite Hload, Hirc, Harg.
    unfold loadAutoBuildConfig, nonempty in *.
    destruct (get_prop "daps_autobuild_config") as [name|]; [|reflexivity].
    destruct (String.eqb name ""); [reflexivity|discriminate].
Qed.

(** The file named by the property is opened when the command line names
    none. *)
Lemma autobuild_config_choice_witness :
  _preperation 600 5 5555 3 Fixture.configured string Fixture.open_config
               Fixture.fetch Fixture.plain_args =
    Done {| p_settings := {| _interval := 600; _max_containers := 5;
                             _api_server := None;
                             _api_server_port := 5555 |};
            p_irc_config :=
              {| irc_server := None; irc_server_port := 6667;
                 irc_channel := "#None"; irc_bot_nickname := None;
                 irc_bot_username := None;
                 irc_flags := {| irc_inform_build_success := false;
                                 irc_inform_build_fail := false;
                                 irc_channel_messages := false |} |};
            p_autoBuildConfigFile := Some "/etc/autobuild.xml";
            p_autoBuildConfig := "/etc/autobuild.xml";
            p_projects := [Sample.book];
            p_daemon_info := initial_info |} /\
  exists file,
    Fixture.configured "daps_autobuild_config" = Some file /\
    Fixture.open_config file = Done "/etc/autobuild.xml".
Proof.
  assert (Hrun : _preperation 600 5 5555 3 Fixture.configured string
                   Fixture.open_config Fixture.fetch Fixture.plain_args =
                 Done {| p_settings := {| _interval := 600;
                                          _max_containers := 5;
                                          _api_server := None;
                                          _api_server_port := 5555 |};
                         p_irc_config :=
                           {| irc_server := None; irc_server_port := 6667;
                              irc_channel := "#None";
                              irc_bot_nickname := None;
                              irc_bot_username := None;
                              irc_flags :=
                                {| irc_inform_build_success := false;
                                   irc_inform_build_fail := false;
                                   irc_channel_messages := false |} |};
                         p_autoBuildConfigFile := Some "/etc/autobuild.xml";
                         p_autoBuildConfig := "/etc/autobuild.xml";
                         p_projects := [Sample.book];
                         p_daemon_info := initial_info |})
    by reflexivity.
  split; [exact Hrun|].
  destruct (proj1 (autobuild_config_choice 600 5 5555 3 Fixture.configured
                     string Fixture.open_config Fixture.fetch
                     Fixture.plain_args) _ Hrun)
    as (file & _ & _ & Hprop & Hopen & _).
  exists file. split; [exact Hprop|exact Hopen].
Defined.

(** The requirements.  The loop over the groups of the system finds the
    user exactly when some group named [docker] lists the user as a
    member.  A user who is not found ends [execute] with the uncaught
    [UserNotInDockerGroupException], whether or not the image is
    imported; only for a user who is found does a missing image end it
    with the exit code [E_DOCKER_IMAGE_MISSING].  [execute] starts its
    threads only when the preparation returned and both requirements
    hold, and then the scheduler thread is among them, after the IRC bot
    and the status API. *)
Theorem requirements_outcome
  (D_INTERVAL D_MAX_CONTAINERS D_PORT E_GIT E_IMAGE : Z)
  (get_prop : string -> option string) (Cfg : Type)
  (AutoBuildConfig : string -> startup Cfg)
  (fetchProjects : Cfg -> startup (list Project))
  (user : string) (groups : list Group) (is_image_imported : bool)
  (args : Args) :
  (user_in_docker_group user groups = true <->
   exists g, g ∈ groups /\ gr_name g = "docker" /\ user ∈ gr_mem g) /\
  (user_in_docker_group user groups = false ->
   _checkDockerImage E_IMAGE user groups is_image_imported =
     Stopped UserNotInDockerGroupException) /\
  (user_in_docker_group user groups = true -> is_image_imported = false ->
   _checkDockerImage E_IMAGE user groups is_image_imported =
     Stopped (SysExit E_IMAGE)) /\
  (forall st services,
      execute D_INTERVAL D_MAX_CONTAINERS D_PORT E_GIT E_IMAGE get_prop Cfg
              AutoBuildConfig fetchProjects user groups is_image_imported
              args = Done (st, services) ->
      _preperation D_INTERVAL D_MAX_CONTAINERS D_PORT E_GIT get_prop Cfg
                   AutoBuildConfig fetchProjects args = Done st /\
      user_in_docker_group user groups = true /\
      is_image_imported = true /\
      services =
        (if use_irc args then [IrcBotThread] else []) ++
        (if is_true (_api_server (p_settings st)) then [ApiServerThread]
         else []) ++ [JobManagerThread]).
Proof.
  split; [apply user_in_docker_group_spec|].
  unfold _checkDockerImage, checkRequirements.
  split; [intros ->; reflexivity|].
  split; [intros -> ->; reflexivity|].
  intros st services. unfold execute, _checkDockerImage, checkRequirements.
  destruct (_preperation _ _ _ _ _ _ _ _ _) as [prepared|s]; [|discriminate].
  destruct (user_in_docker_group user groups); simpl; [|discriminate].
  destruct is_image_imported; simpl; [|discriminate].
  intros [= <- <-]. repeat split.
Qed.

(** ** A pass after a pass *)

(** A pass of the scheduler that directly follows another one starts
    nothing and leaves the store as it is, whatever the job sequence, the
    counters and the ceiling are: either the first pass promoted the first
    job, which then blocks the scan, or it found nothing to promote. *)
Theorem second_pass_idle (max_containers : Z) (clock clock' : nat -> Z)
  (info : DaemonInfo) :
  exists (info' : DaemonInfo) (started : list Worker),
    jobManager_tick max_containers clock info = Py.Ok (info', started) /\
    jobManager_tick max_containers clock' info' = Py.Ok (info', []).
Proof.
  rewrite jobManager_tick_spec.
  set (k := promoted max_containers info).
  eexists _, _. split; [reflexivity|].
  destruct k as [|k'] eqn:Hk.
  - simpl. rewrite drop_0, Z.sub_0_r, Z.add_0_r.
    replace {| jobs := jobs info;
               scheduled_builds := scheduled_builds info;
               running_builds := running_builds info |}
      with info by (destruct info; reflexivity).
    rewrite jobManager_tick_spec. cbv zeta. unfold k in Hk. rewrite Hk. simpl.
    rewrite drop_0, Z.sub_0_r, Z.add_0_r. destruct info; reflexivity.
  - destruct (jobs info) as [|j rest] eqn:Hjobs.
    + exfalso. subst k. unfold promoted in Hk. rewrite Hjobs in Hk.
      simpl in Hk. lia.
    + simpl take. simpl drop. rewrite imap_cons.
      eapply tick_blocked_by_running_head; [simpl; reflexivity|reflexivity].
Qed.

(** ** Names of the files of one job *)



